(** * The vision-segmentation template [main.py]: a shallow embedding

    The source file is a generator template: JavaScript directives
    ([#::: if (it.flag) { :::#]) select the Python statements that end up in
    the generated training script.  The directives are embedded as Rocq
    conditionals over the generation options [It]; the Python statements are
    embedded as computations in a small state-and-output monad whose output
    is the sequence of calls the script makes into its collaborators
    (ignite, torch, the template's [utils], [data], [trainers], [vis]).

    Conventions:
    - queries without effect ([idist.get_rank()], [idist.device()],
      [len(dataloader)]) and the results of the collaborators are read from
      a [World]; nothing is assumed about them;
    - the events the trainer fires during [trainer.run] are part of the
      [World] as well, so every statement holds for normal, early-stopped
      and terminated runs alike;
    - Python integers are unbounded ([Z]); [//] and [%] are [Z.div] and
      [Z.modulo], which round like Python's;
    - exceptions raised inside the collaborators are not modelled: a trace
      is that of an execution that reaches the end of [run]. *)

From stdpp Require Import gmap strings list fin_maps sorting.
From Stdlib Require Import ZArith Lia.

Local Open Scope Z_scope.

(** ** Values of the template language *)

Module Js.

(** A generation option as the template engine sees it. *)
Inductive value :=
| Undefined
| Bool (b : bool)
| Num (n : Z)
| Str (s : string).

(** [if (v)]: JavaScript truthiness. *)
Definition truthy (v : value) : bool :=
  match v with
  | Undefined => false
  | Bool b => b
  | Num n => negb (n =? 0)
  | Str s => negb (String.eqb s "")
  end.

(** [a === b] *)
Definition strict_eq (a b : value) : bool :=
  match a, b with
  | Undefined, Undefined => true
  | Bool x, Bool y => Bool.eqb x y
  | Num x, Num y => x =? y
  | Str x, Str y => String.eqb x y
  | _, _ => false
  end.

(** A numeric form input: a number, or [undefined] while it is empty. *)
Definition number := option Z.

(** [n > k] for a numeric input; [undefined > k] is [false]. *)
Definition gt (n : number) (k : Z) : bool :=
  match n with
  | Some x => k <? x
  | None => false
  end.

End Js.

(** ** The event filter of the image logger (main.py, lines 118-122)

    The closure reads [len(dataloader_eval)], [trainer.state.epoch] and
    [config.max_epochs]; they are explicit arguments here.  The first
    positional argument (the engine) is ignored by the source. *)

Definition py_and (a b : bool) : bool := if a then b else a.

Definition custom_event_filter
    (len_dataloader_eval epoch max_epochs : Z) (val_iteration : Z) : bool :=
  let c1 := val_iteration =? len_dataloader_eval / 2 in
  let c2 := epoch mod 3 =? 0 in
  let c2 := c2 || (epoch =? max_epochs) in
  py_and c1 c2.

(** ** Python-side data *)

(** A value of the parsed command line. *)
Inductive pyval :=
| PyNone
| PyInt (n : Z)
| PyStr (s : string).

(** Floating-point numbers are carried as their literals. *)
Definition pyfloat := string.

(** A [pathlib.Path] as its components; [p / name] appends one. *)
Definition path := list string.
Definition path_join (p : path) (name : string) : path := p ++ [name].

(** The objects [run] builds and hands to [setup_handlers]. *)
Inductive obj :=
| model
| optimizer
| trainer
| lr_scheduler.

Inductive engine :=
| the_trainer
| the_evaluator.

(** The attributes of [config] that [main.py] reads or writes. *)
Record Config := {
  seed : Z;
  num_classes : Z;
  lr : pyfloat;
  max_epochs : Z;
  log_every_iters : Z;
  train_epoch_length : option Z;
  eval_epoch_length : option Z;
  output_dir : path;
  data_path : pyval;
  backend : pyval;
  nproc_per_node : pyval;
  nnodes : pyval;
  node_rank : pyval;
  master_addr : pyval;
  master_port : pyval
}.

Definition set_output_dir (p : path) (c : Config) : Config :=
  {| seed := seed c; num_classes := num_classes c; lr := lr c;
     max_epochs := max_epochs c; log_every_iters := log_every_iters c;
     train_epoch_length := train_epoch_length c;
     eval_epoch_length := eval_epoch_length c;
     output_dir := p;
     data_path := data_path c; backend := backend c;
     nproc_per_node := nproc_per_node c; nnodes := nnodes c;
     node_rank := node_rank c; master_addr := master_addr c;
     master_port := master_port c |}.

(** ** Generation options read by the template directives *)

Record It := {
  save_training : Js.value;
  save_evaluation : Js.value;
  patience : Js.value;
  terminate_on_nan : Js.value;
  timer : Js.value;
  limit_sec : Js.value;
  logger : Js.value;
  dist : Js.value;
  it_nproc_per_node : Js.value;
  it_nnodes : Js.number;
  it_master_addr : Js.value;
  it_master_port : Js.value
}.

(** The directive of lines 84, 161 and 196. *)
Definition handlers_enabled (it : It) : bool :=
  Js.truthy (save_training it) || Js.truthy (save_evaluation it)
  || Js.truthy (patience it) || Js.truthy (terminate_on_nan it)
  || Js.truthy (timer it) || Js.truthy (limit_sec it).

(** The directive of line 216. *)
Definition multi_node (it : It) : bool :=
  Js.truthy (it_nproc_per_node it) && Js.gt (it_nnodes it) 1
  && Js.truthy (it_master_addr it) && Js.truthy (it_master_port it).

(** ** Collaborators

    What the calls into code outside [main.py] return.  Nothing is assumed
    about these results. *)

Record Checkpoint := { last_checkpoint : pyval }.
Record Timer := { timer_value : pyfloat }.

(** The triple returned by [setup_handlers]. *)
Record Handlers := {
  ckpt_handler_train : option Checkpoint;
  ckpt_handler_eval : option Checkpoint;
  the_timer : option Timer
}.

(** The experiment logger returned by [setup_exp_logging]: whether it is an
    instance of [WandBLogger], and its truth value. *)
Record ExpLogger := {
  isinstance_WandBLogger : bool;
  logger_truthy : bool
}.

Inductive event_name :=
| STARTED
| EPOCH_STARTED
| ITERATION_STARTED
| ITERATION_COMPLETED
| EPOCH_COMPLETED
| TERMINATE
| COMPLETED.

(** An event fired by the trainer, with the trainer's state at that time. *)
Record Fired := {
  fired_name : event_name;
  state_epoch : Z;
  state_iteration : Z
}.

Record World := {
  get_rank : Z;
  get_world_size : Z;
  sampler_is_distributed : bool;
  len_dataloader_train : Z;
  len_dataloader_eval : Z;
  setup_output_dir : Config -> Z -> path;
  setup_handlers :
    Config -> option (gmap string obj) -> option (gmap string obj) -> Handlers;
  setup_exp_logging : Config -> ExpLogger;
  (** the events the engine fires, in order, during [trainer.run] *)
  trainer_fires : list Fired
}.

Definition with_exp_logger (lg : ExpLogger) (w : World) : World :=
  {| get_rank := get_rank w; get_world_size := get_world_size w;
     sampler_is_distributed := sampler_is_distributed w;
     len_dataloader_train := len_dataloader_train w;
     len_dataloader_eval := len_dataloader_eval w;
     setup_output_dir := setup_output_dir w;
     setup_handlers := setup_handlers w;
     setup_exp_logging := fun _ => lg;
     trainer_fires := trainer_fires w |}.

(** ** Events of the engine library, as [main.py] uses them *)

Inductive event_filter :=
| no_filter
| every (n : Z)
| filter_custom_event_filter.

Record Event := {
  ev_name : event_name;
  ev_filter : event_filter
}.

(** The handlers [run] defines or registers on the trainer: [set_epoch]
    (line 77), [log_metrics] with a tag (line 149), and the two functions
    named [_] of lines 159 and 172. *)
Inductive handler :=
| set_epoch
| log_metrics_tagged (tag : string)
| on_epoch_completed
| on_started.

Record Registration := {
  reg_engine : engine;
  reg_event : Event;
  reg_handler : handler
}.

(** ** The calls the script makes *)

Inductive message :=
| msg_configuration (c : Config)
| msg_time_per_batch (seconds : pyfloat)
| msg_last_training_checkpoint (name : pyval)
| msg_last_evaluation_checkpoint (name : pyval).

Inductive effect :=
| ManualSeed (s : Z)
| SetupOutputDir (rank : Z)
| SetupData
| AutoModel (n_classes : Z)
| AutoOptim (lr0 momentum weight_decay : pyfloat) (nesterov : bool)
| CrossEntropyLoss
| LambdaLR (lr0 : pyfloat) (n : Z) (a : pyfloat)
| ConfusionMatrix (n_classes : Z)
| IoU
| mIoU
| SetupTrainer
| SetupEvaluator
| SetupLogging
| LoggerInfo (m : message)
| WriteText (p : path) (yaml_dump : Config)
| AddEventHandler (r : Registration)
| SetupHandlers (to_save_train to_save_eval : option (gmap string obj))
| SetupExpLogging
| ExpLoggerAttach (e : engine) (n_images : Z) (prefix_tag : string) (ev : Event)
| TrainerRun (max_epochs : Z) (epoch_length : option Z)
| SamplerSetEpoch (epoch : Z)
| TimerReset
| EvaluatorRun (epoch_length : option Z)
| LogMetrics (e : engine) (tag : string)
| ExpLoggerFinish
| ExpLoggerClose
| ParseArgs
| DownloadDatasets (data_path : pyval)
| Parallel (backend : pyval) (kwargs : gmap string pyval)
| ParallelRun.

(** ** The monad of the script

    The state holds what the script mutates: the [config] object (line 27
    assigns [config.output_dir]) and the handlers registered on the engines.
    The output is the sequence of calls made so far. *)

Record St := {
  config : Config;
  registered : list Registration
}.

Record Res (A : Type) := mkRes {
  val : A;
  st : St;
  out : list effect
}.
Arguments mkRes {A} _ _ _.
Arguments val {A} _.
Arguments st {A} _.
Arguments out {A} _.

Definition M (A : Type) : Type := St -> Res A.

#[global] Instance M_ret : MRet M := fun A a s => mkRes a s [].

#[global] Instance M_bind : MBind M := fun A B f m s =>
  match m s with
  | mkRes a s1 t1 =>
      match f a s1 with
      | mkRes b s2 t2 => mkRes b s2 (t1 ++ t2)
      end
  end.

Definition emit (e : effect) : M unit := fun s => mkRes tt s [e].

Definition get_config : M Config := fun s => mkRes (config s) s [].

Definition put_config (c : Config) : M unit := fun s =>
  mkRes tt {| config := c; registered := registered s |} [].

Definition get_registered : M (list Registration) := fun s =>
  mkRes (registered s) s [].

(** [engine.add_event_handler(event, handler)] and [@engine.on(event)]. *)
Definition add_event_handler (e : engine) (ev : Event) (h : handler) : M unit :=
  fun s =>
    let r := {| reg_engine := e; reg_event := ev; reg_handler := h |} in
    mkRes tt {| config := config s; registered := registered s ++ [r] |}
          [AddEventHandler r].

(** ** Dispatch of the trainer's events to the registered handlers

    The part of the engine library's event system that [main.py] relies on:
    a handler registered for an event runs when the engine fires an event
    of that name that passes the event's filter, handlers run in
    registration order, and [every=n] lets through the occurrences whose
    counter is a multiple of [n] (the library rejects [n <= 0] when the
    event is built). *)

Definition event_name_eqb (a b : event_name) : bool :=
  match a, b with
  | STARTED, STARTED
  | EPOCH_STARTED, EPOCH_STARTED
  | ITERATION_STARTED, ITERATION_STARTED
  | ITERATION_COMPLETED, ITERATION_COMPLETED
  | EPOCH_COMPLETED, EPOCH_COMPLETED
  | TERMINATE, TERMINATE
  | COMPLETED, COMPLETED => true
  | _, _ => false
  end.

Definition engine_eqb (a b : engine) : bool :=
  match a, b with
  | the_trainer, the_trainer | the_evaluator, the_evaluator => true
  | _, _ => false
  end.

(** The counter an event filter is applied to: the iteration for iteration
    events, the epoch for the others. *)
Definition event_counter (f : Fired) : Z :=
  match fired_name f with
  | ITERATION_STARTED | ITERATION_COMPLETED => state_iteration f
  | _ => state_epoch f
  end.

(** Whether a filtered event lets the fired event [f] through.
    [every=n] passes each [n]-th occurrence; [custom_event_filter] reads the
    trainer's current epoch, [trainer_epoch]. *)
Definition passes (w : World) (c : Config) (trainer_epoch : Z)
    (flt : event_filter) (f : Fired) : bool :=
  match flt with
  | no_filter => true
  | every n => event_counter f mod n =? 0
  | filter_custom_event_filter =>
      custom_event_filter (len_dataloader_eval w) trainer_epoch (max_epochs c)
                          (event_counter f)
  end.

Definition matches (w : World) (c : Config) (trainer_epoch : Z)
    (ev : Event) (f : Fired) : bool :=
  event_name_eqb (ev_name ev) (fired_name f)
  && passes w c trainer_epoch (ev_filter ev) f.

(** The bodies of the handlers of lines 77-81, 149, 159-168 and 172-173.
    [hs] is the result of [setup_handlers], bound only when the directive of
    line 84 held. *)
Definition handler_body (it : It) (w : World) (hs : option Handlers)
    (h : handler) (f : Fired) : M unit :=
  match h with
  | set_epoch =>
      if (1 <? get_world_size w) && sampler_is_distributed w
      then emit (SamplerSetEpoch (state_epoch f - 1))
      else mret tt
  | log_metrics_tagged tag => emit (LogMetrics the_trainer tag)
  | on_epoch_completed =>
      (if handlers_enabled it then
         match hs with
         | Some r =>
             match the_timer r with
             | Some t =>
                 emit (LoggerInfo (msg_time_per_batch (timer_value t)));;
                 emit TimerReset
             | None => mret tt
             end
         | None => mret tt
         end
       else mret tt);;
      c ← get_config;
      emit (EvaluatorRun (eval_epoch_length c));;
      emit (LogMetrics the_evaluator "eval")
  | on_started =>
      c ← get_config;
      emit (EvaluatorRun (eval_epoch_length c))
  end.

(** One fired event: the handlers registered on the trainer run in
    registration order, each if its event matches. *)
Fixpoint fire (it : It) (w : World) (hs : option Handlers)
    (rs : list Registration) (f : Fired) : M unit :=
  match rs with
  | [] => mret tt
  | r :: rs' =>
      c ← get_config;
      (if engine_eqb (reg_engine r) the_trainer
          && matches w c (state_epoch f) (reg_event r) f
       then handler_body it w hs (reg_handler r) f
       else mret tt);;
      fire it w hs rs' f
  end.

(** [trainer.run(...)]: the events of the run, one after the other. *)
Fixpoint engine_run (it : It) (w : World) (hs : option Handlers)
    (fs : list Fired) : M unit :=
  match fs with
  | [] => mret tt
  | f :: fs' =>
      rs ← get_registered;
      fire it w hs rs f;;
      engine_run it w hs fs'
  end.

(** ** [run] (main.py, lines 20-208)

    [run] embeds the executions in which every collaborator returns.  The
    engine library builds the event of line 148 only for a positive
    [config.log_every_iters] and raises [ValueError] otherwise, before any of
    the later calls is made; the statements about the calls from line 148 on
    therefore carry [0 < log_every_iters c] as a hypothesis. *)

Definition to_save_train_dict : gmap string obj :=
  {[ "model" := model; "optimizer" := optimizer; "trainer" := trainer;
     "lr_scheduler" := lr_scheduler ]}.

Definition to_save_eval_dict : gmap string obj := {[ "model" := model ]}.

(** Lines 84-106. *)
Definition handlers_block (it : It) (w : World) : M (option Handlers) :=
  if handlers_enabled it then
    let to_save_train :=
      if Js.truthy (save_training it) then Some to_save_train_dict else None in
    let to_save_eval :=
      if Js.truthy (save_evaluation it) then Some to_save_eval_dict else None in
    c ← get_config;
    emit (SetupHandlers to_save_train to_save_eval);;
    mret (Some (setup_handlers w c to_save_train to_save_eval))
  else mret None.

(** Lines 109-142. *)
Definition experiment_tracking_block (it : It) (w : World)
    : M (option ExpLogger) :=
  if Js.truthy (logger it) then
    if get_rank w =? 0 then
      c ← get_config;
      emit SetupExpLogging;;
      emit (ExpLoggerAttach the_evaluator 15 "validation"
              {| ev_name := ITERATION_COMPLETED;
                 ev_filter := filter_custom_event_filter |});;
      mret (Some (setup_exp_logging w c))
    else mret None
  else mret None.

(** Lines 183-193. *)
Definition close_logger_block (it : It) (w : World)
    (exp_logger : option ExpLogger) : M unit :=
  if Js.truthy (logger it) then
    if get_rank w =? 0 then
      match exp_logger with
      | Some lg =>
          if isinstance_WandBLogger lg then emit ExpLoggerFinish
          else if logger_truthy lg then emit ExpLoggerClose
          else mret tt
      | None => mret tt
      end
    else mret tt
  else mret tt.

(** Lines 196-208. *)
Definition last_checkpoint_block (it : It) (hs : option Handlers) : M unit :=
  if handlers_enabled it then
    match hs with
    | Some r =>
        match ckpt_handler_train r with
        | Some k =>
            emit (LoggerInfo (msg_last_training_checkpoint (last_checkpoint k)))
        | None => mret tt
        end;;
        match ckpt_handler_eval r with
        | Some k =>
            emit (LoggerInfo (msg_last_evaluation_checkpoint (last_checkpoint k)))
        | None => mret tt
        end
    | None => mret tt
    end
  else mret tt.

Definition run (it : It) (w : World) (local_rank : Z) : M unit :=
  let rank := get_rank w in
  c0 ← get_config;
  emit (ManualSeed (seed c0 + rank));;
  emit (SetupOutputDir rank);;
  put_config (set_output_dir (setup_output_dir w c0 rank) c0);;
  emit SetupData;;
  let le := len_dataloader_train w in
  c ← get_config;
  emit (AutoModel (num_classes c));;
  emit (AutoOptim "1.0" "0.9" "5e-4" false);;
  emit CrossEntropyLoss;;
  emit (LambdaLR (lr c) (max_epochs c * le) "0.9");;
  emit (ConfusionMatrix (num_classes c));;
  emit IoU;;
  emit mIoU;;
  emit SetupTrainer;;
  emit SetupEvaluator;;
  emit SetupLogging;;
  emit (LoggerInfo (msg_configuration c));;
  emit (WriteText (path_join (output_dir c) "config-lock.yaml") c);;
  add_event_handler the_trainer
    {| ev_name := EPOCH_STARTED; ev_filter := no_filter |} set_epoch;;
  hs ← handlers_block it w;
  exp_logger ← experiment_tracking_block it w;
  add_event_handler the_trainer
    {| ev_name := ITERATION_COMPLETED;
       ev_filter := every (log_every_iters c) |}
    (log_metrics_tagged "train");;
  add_event_handler the_trainer
    {| ev_name := EPOCH_COMPLETED; ev_filter := every 1 |} on_epoch_completed;;
  add_event_handler the_trainer
    {| ev_name := STARTED; ev_filter := no_filter |} on_started;;
  emit (TrainerRun (max_epochs c) (train_epoch_length c));;
  engine_run it w hs (trainer_fires w);;
  close_logger_block it w exp_logger;;
  last_checkpoint_block it hs.

(** The calls of one execution of [run], started with the parsed [config]
    and no handler registered. *)
Definition run_trace (it : It) (w : World) (local_rank : Z) (c : Config)
    : list effect :=
  out (run it w local_rank {| config := c; registered := [] |}).

(** ** [main] (main.py, lines 212-232) *)

Inductive exception :=
| NameError (name : string).

Inductive outcome :=
| returned
| raised (e : exception).

(** The assignment to [kwargs] that the directives of lines 216-226 render;
    [None] when they render none. *)
Definition spawn_kwargs (it : It) (c : Config) : option (gmap string pyval) :=
  if multi_node it then
    Some {[ "nproc_per_node" := nproc_per_node c;
            "nnodes" := nnodes c;
            "node_rank" := node_rank c;
            "master_addr" := master_addr c;
            "master_port" := master_port c ]}
  else if Js.truthy (it_nproc_per_node it) then
    Some {[ "nproc_per_node" := nproc_per_node c ]}
  else None.

Definition main (it : It) (parse_args : Config) : M outcome :=
  emit ParseArgs;;
  put_config parse_args;;
  c ← get_config;
  emit (DownloadDatasets (data_path c));;
  if Js.strict_eq (dist it) (Js.Str "spawn") then
    match spawn_kwargs it c with
    | Some kwargs =>
        emit (Parallel (backend c) kwargs);;
        emit ParallelRun;;
        mret returned
    | None => mret (raised (NameError "kwargs"))
    end
  else
    emit (Parallel (backend c) ∅);;
    emit ParallelRun;;
    mret returned.

Definition main_trace (it : It) (parse_args c0 : Config) : list effect :=
  out (main it parse_args {| config := c0; registered := [] |}).

(** ** Views of a trace *)

Definition is_manual_seed (e : effect) : bool :=
  match e with ManualSeed _ => true | _ => false end.

Definition is_evaluator_run (e : effect) : bool :=
  match e with EvaluatorRun _ => true | _ => false end.

Definition is_metric_logging (e : effect) : bool :=
  match e with EvaluatorRun _ | LogMetrics _ _ => true | _ => false end.

Definition is_logger_shutdown (e : effect) : bool :=
  match e with ExpLoggerFinish | ExpLoggerClose => true | _ => false end.

Definition is_experiment_tracking (e : effect) : bool :=
  match e with
  | SetupExpLogging | ExpLoggerAttach _ _ _ _
  | ExpLoggerFinish | ExpLoggerClose => true
  | _ => false
  end.

Definition is_setup_handlers (e : effect) : bool :=
  match e with SetupHandlers _ _ => true | _ => false end.

Definition is_parallel (e : effect) : bool :=
  match e with Parallel _ _ => true | _ => false end.

(** Logger setup, file writes and the start of training. *)
Definition is_artifact_step (e : effect) : bool :=
  match e with
  | SetupLogging | WriteText _ _ | TrainerRun _ _ => true
  | _ => false
  end.

Inductive phase :=
| dataset_setup
| model_construction
| metric_setup
| engine_construction
| handler_registration
| run_loop
| teardown.

Definition phase_rank (p : phase) : nat :=
  match p with
  | dataset_setup => 1
  | model_construction => 2
  | metric_setup => 3
  | engine_construction => 4
  | handler_registration => 5
  | run_loop => 6
  | teardown => 7
  end%nat.

Definition phase_le (p q : phase) : Prop := (phase_rank p <= phase_rank q)%nat.

(** The phase a call belongs to; seeding, the output directory, the Python
    logger and the configuration dump belong to none of the seven. *)
Definition phase_of (e : effect) : option phase :=
  match e with
  | SetupData => Some dataset_setup
  | AutoModel _ | AutoOptim _ _ _ _ | CrossEntropyLoss | LambdaLR _ _ _ =>
      Some model_construction
  | ConfusionMatrix _ | IoU | mIoU => Some metric_setup
  | SetupTrainer | SetupEvaluator => Some engine_construction
  | AddEventHandler _ | SetupHandlers _ _ | SetupExpLogging
  | ExpLoggerAttach _ _ _ _ => Some handler_registration
  | TrainerRun _ _ | SamplerSetEpoch _ | TimerReset | EvaluatorRun _
  | LogMetrics _ _ | LoggerInfo (msg_time_per_batch _) => Some run_loop
  | ExpLoggerFinish | ExpLoggerClose
  | LoggerInfo (msg_last_training_checkpoint _)
  | LoggerInfo (msg_last_evaluation_checkpoint _) => Some teardown
  | _ => None
  end.

Definition phases_of (tr : list effect) : list phase := omap phase_of tr.

Definition is_name (n : event_name) (f : Fired) : bool :=
  event_name_eqb n (fired_name f).

(** ** Names for the intermediate states of [run] *)

(** [config] after line 27. *)
Definition resolved_config (w : World) (c : Config) : Config :=
  set_output_dir (setup_output_dir w c (get_rank w)) c.

Definition reg_set_epoch : Registration :=
  {| reg_engine := the_trainer;
     reg_event := {| ev_name := EPOCH_STARTED; ev_filter := no_filter |};
     reg_handler := set_epoch |}.

(** The handlers on the trainer when [trainer.run] starts. *)
Definition registrations (c : Config) : list Registration :=
  [ reg_set_epoch;
    {| reg_engine := the_trainer;
       reg_event := {| ev_name := ITERATION_COMPLETED;
                       ev_filter := every (log_every_iters c) |};
       reg_handler := log_metrics_tagged "train" |};
    {| reg_engine := the_trainer;
       reg_event := {| ev_name := EPOCH_COMPLETED; ev_filter := every 1 |};
       reg_handler := on_epoch_completed |};
    {| reg_engine := the_trainer;
       reg_event := {| ev_name := STARTED; ev_filter := no_filter |};
       reg_handler := on_started |} ].

Definition state_after_set_epoch (w : World) (c : Config) : St :=
  {| config := resolved_config w c; registered := [reg_set_epoch] |}.

Definition state_at_run (w : World) (c : Config) : St :=
  {| config := resolved_config w c;
     registered := registrations (resolved_config w c) |}.

(** The calls made while one fired event is dispatched. *)
Definition response (it : It) (w : World) (hs : option Handlers) (c : Config)
    (f : Fired) : list effect :=
  out (fire it w hs (registrations (resolved_config w c)) f (state_at_run w c)).

(** ** Sample inputs *)

Definition sample_config : Config :=
  {| seed := 666; num_classes := 21; lr := "0.007"; max_epochs := 2;
     log_every_iters := 2; train_epoch_length := Some 3;
     eval_epoch_length := None; output_dir := ["logs"];
     data_path := PyStr "."; backend := PyStr "nccl";
     nproc_per_node := PyInt 2; nnodes := PyInt 2; node_rank := PyInt 0;
     master_addr := PyStr "127.0.0.1"; master_port := PyInt 8080 |}.

Definition sample_it : It :=
  {| save_training := Js.Bool true; save_evaluation := Js.Bool false;
     patience := Js.Undefined; terminate_on_nan := Js.Bool false;
     timer := Js.Bool false; limit_sec := Js.Undefined;
     logger := Js.Str "wandb"; dist := Js.Str "spawn";
     it_nproc_per_node := Js.Num 2; it_nnodes := Some 2;
     it_master_addr := Js.Str "127.0.0.1"; it_master_port := Js.Num 8080 |}.

Definition sample_it_single_node : It :=
  {| save_training := Js.Bool false; save_evaluation := Js.Bool false;
     patience := Js.Undefined; terminate_on_nan := Js.Bool false;
     timer := Js.Bool false; limit_sec := Js.Undefined;
     logger := Js.Undefined; dist := Js.Str "spawn";
     it_nproc_per_node := Js.Num 2; it_nnodes := Some 1;
     it_master_addr := Js.Undefined; it_master_port := Js.Undefined |}.

Definition sample_it_launched : It :=
  {| save_training := Js.Bool false; save_evaluation := Js.Bool false;
     patience := Js.Undefined; terminate_on_nan := Js.Bool false;
     timer := Js.Bool false; limit_sec := Js.Undefined;
     logger := Js.Undefined; dist := Js.Str "torchrun";
     it_nproc_per_node := Js.Undefined; it_nnodes := None;
     it_master_addr := Js.Undefined; it_master_port := Js.Undefined |}.

(** The events of two epochs of three iterations each. *)
Definition sample_fires : list Fired :=
  let ev n e i := {| fired_name := n; state_epoch := e; state_iteration := i |} in
  [ ev STARTED 0 0;
    ev EPOCH_STARTED 1 0;
    ev ITERATION_STARTED 1 1; ev ITERATION_COMPLETED 1 1;
    ev ITERATION_STARTED 1 2; ev ITERATION_COMPLETED 1 2;
    ev ITERATION_STARTED 1 3; ev ITERATION_COMPLETED 1 3;
    ev EPOCH_COMPLETED 1 3;
    ev EPOCH_STARTED 2 3;
    ev ITERATION_STARTED 2 4; ev ITERATION_COMPLETED 2 4;
    ev ITERATION_STARTED 2 5; ev ITERATION_COMPLETED 2 5;
    ev ITERATION_STARTED 2 6; ev ITERATION_COMPLETED 2 6;
    ev EPOCH_COMPLETED 2 6;
    ev COMPLETED 2 6 ].

Definition sample_world (rank : Z) : World :=
  {| get_rank := rank; get_world_size := 2; sampler_is_distributed := true;
     len_dataloader_train := 3; len_dataloader_eval := 10;
     setup_output_dir := fun c _ => path_join (output_dir c) "run-1";
     setup_handlers := fun _ _ _ =>
       {| ckpt_handler_train := Some {| last_checkpoint := PyStr "ckpt.pt" |};
          ckpt_handler_eval := None;
          the_timer := None |};
     setup_exp_logging := fun _ =>
       {| isinstance_WandBLogger := true; logger_truthy := true |};
     trainer_fires := sample_fires |}.

(** The calls of lines 22-81, which no directive guards. *)
Definition preamble (w : World) (c : Config) : list effect :=
  let rc := resolved_config w c in
  [ ManualSeed (seed c + get_rank w);
    SetupOutputDir (get_rank w);
    SetupData;
    AutoModel (num_classes rc);
    AutoOptim "1.0" "0.9" "5e-4" false;
    CrossEntropyLoss;
    LambdaLR (lr rc) (max_epochs rc * len_dataloader_train w) "0.9";
    ConfusionMatrix (num_classes rc);
    IoU; mIoU; SetupTrainer; SetupEvaluator; SetupLogging;
    LoggerInfo (msg_configuration rc);
    WriteText (path_join (output_dir rc) "config-lock.yaml") rc;
    AddEventHandler reg_set_epoch ].

(** ** Further views of a trace *)

Definition phase_eqb (p q : phase) : bool :=
  Nat.eqb (phase_rank p) (phase_rank q).

(** The calls of one phase. *)
Definition in_phase (p : phase) (e : effect) : bool :=
  match phase_of e with
  | Some q => phase_eqb p q
  | None => false
  end.

Definition is_sampler_set_epoch (e : effect) : bool :=
  match e with SamplerSetEpoch _ => true | _ => false end.

(** The timer report of lines 162-164 and the evaluator run of line 167. *)
Definition is_timer_or_evaluator (e : effect) : bool :=
  match e with
  | LoggerInfo (msg_time_per_batch _) | TimerReset | EvaluatorRun _ => true
  | _ => false
  end.

(** The calls that receive [num_classes] or the scheduler's horizon. *)
Definition is_sized (e : effect) : bool :=
  match e with
  | AutoModel _ | LambdaLR _ _ _ | ConfusionMatrix _ => true
  | _ => false
  end.

(** Seeding, the output directory, and the first consumers of the seed. *)
Definition is_seed_or_first_use (e : effect) : bool :=
  match e with
  | ManualSeed _ | SetupOutputDir _ | SetupData | AutoModel _ => true
  | _ => false
  end.

(** The Python logger's setup, the configuration line and file writes. *)
Definition is_config_report (e : effect) : bool :=
  match e with
  | SetupLogging | LoggerInfo (msg_configuration _) | WriteText _ _ => true
  | _ => false
  end.

(** The events some handler of [run] is registered for. *)
Definition listened (f : Fired) : bool :=
  match fired_name f with
  | STARTED | EPOCH_STARTED | ITERATION_COMPLETED | EPOCH_COMPLETED => true
  | _ => false
  end.

Definition with_trainer_fires (fs : list Fired) (w : World) : World :=
  {| get_rank := get_rank w; get_world_size := get_world_size w;
     sampler_is_distributed := sampler_is_distributed w;
     len_dataloader_train := len_dataloader_train w;
     len_dataloader_eval := len_dataloader_eval w;
     setup_output_dir := setup_output_dir w;
     setup_handlers := setup_handlers w;
     setup_exp_logging := setup_exp_logging w;
     trainer_fires := fs |}.

(** The arguments [run] passes to [setup_handlers], and its result. *)
Definition to_save_train (it : It) : option (gmap string obj) :=
  if Js.truthy (save_training it) then Some to_save_train_dict else None.

Definition to_save_eval (it : It) : option (gmap string obj) :=
  if Js.truthy (save_evaluation it) then Some to_save_eval_dict else None.

Definition handlers_of_run (it : It) (w : World) (c : Config) : Handlers :=
  setup_handlers w (resolved_config w c) (to_save_train it) (to_save_eval it).

Definition sample_it_spawn_no_nproc : It :=
  {| save_training := Js.Bool false; save_evaluation := Js.Bool false;
     patience := Js.Undefined; terminate_on_nan := Js.Bool false;
     timer := Js.Bool false; limit_sec := Js.Undefined;
     logger := Js.Undefined; dist := Js.Str "spawn";
     it_nproc_per_node := Js.Undefined; it_nnodes := Some 2;
     it_master_addr := Js.Str "127.0.0.1"; it_master_port := Js.Num 8080 |}.

(** * Properties *)

(** ** Laws of the monad *)

Section MonadLaws.
Context {A B : Type} (m : M A) (f : A -> M B) (s : St).

Lemma out_bind :
  out ((m ≫= f) s) = out (m s) ++ out (f (val (m s)) (st (m s))).
Proof.
  unfold mbind, M_bind. destruct (m s) as [a s1 t1]; cbn.
  destruct (f a s1); reflexivity.
Qed.

Lemma st_bind : st ((m ≫= f) s) = st (f (val (m s)) (st (m s))).
Proof.
  unfold mbind, M_bind. destruct (m s) as [a s1 t1]; cbn.
  destruct (f a s1); reflexivity.
Qed.

Lemma val_bind : val ((m ≫= f) s) = val (f (val (m s)) (st (m s))).
Proof.
  unfold mbind, M_bind. destruct (m s) as [a s1 t1]; cbn.
  destruct (f a s1); reflexivity.
Qed.
End MonadLaws.

Ltac step :=
  rewrite ?out_bind, ?st_bind, ?val_bind;
  cbn [val st out emit get_config put_config get_registered add_event_handler
       config registered app mret M_ret].

Ltac steps := repeat (progress step).

(** ** The blocks of [run] leave the state alone *)

Lemma st_handlers_block it w s : st (handlers_block it w s) = s.
Proof.
  unfold handlers_block. destruct (handlers_enabled it); [|reflexivity].
  steps. reflexivity.
Qed.

Lemma st_experiment_tracking_block it w s :
  st (experiment_tracking_block it w s) = s.
Proof.
  unfold experiment_tracking_block.
  destruct (Js.truthy (logger it)); [|reflexivity].
  destruct (get_rank w =? 0); [|reflexivity].
  steps. reflexivity.
Qed.

Lemma st_close_logger_block it w lg s : st (close_logger_block it w lg s) = s.
Proof.
  unfold close_logger_block.
  destruct (Js.truthy (logger it)); [|reflexivity].
  destruct (get_rank w =? 0); [|reflexivity].
  destruct lg as [lg|]; [|reflexivity].
  destruct (isinstance_WandBLogger lg); [reflexivity|].
  destruct (logger_truthy lg); reflexivity.
Qed.

Lemma st_handler_body it w hs h f s : st (handler_body it w hs h f s) = s.
Proof.
  destruct h; cbn [handler_body].
  - destruct (_ && _); reflexivity.
  - reflexivity.
  - steps.
    destruct (handlers_enabled it); [|reflexivity].
    destruct hs as [r|]; [|reflexivity].
    destruct (the_timer r); [|reflexivity]. steps. reflexivity.
  - steps. reflexivity.
Qed.

Lemma st_fire it w hs rs f s : st (fire it w hs rs f s) = s.
Proof.
  revert s. induction rs as [|r rs IH]; intros s; cbn [fire]; [reflexivity|].
  steps. rewrite IH.
  destruct (_ && _); [apply st_handler_body | reflexivity].
Qed.

Lemma st_engine_run it w hs fs s : st (engine_run it w hs fs s) = s.
Proof.
  revert s. induction fs as [|f fs IH]; intros s; cbn [engine_run];
    [reflexivity|].
  steps. rewrite IH. apply st_fire.
Qed.

Lemma out_engine_run it w hs fs s :
  out (engine_run it w hs fs s)
  = flat_map (fun f => out (fire it w hs (registered s) f s)) fs.
Proof.
  revert s. induction fs as [|f fs IH]; intros s; cbn [engine_run flat_map];
    [reflexivity|].
  steps. rewrite st_fire, IH. reflexivity.
Qed.

(** ** What each block of [run] calls *)

Lemma out_handlers_block it w s :
  out (handlers_block it w s)
  = if handlers_enabled it
    then [SetupHandlers
            (if Js.truthy (save_training it)
             then Some to_save_train_dict else None)
            (if Js.truthy (save_evaluation it)
             then Some to_save_eval_dict else None)]
    else [].
Proof.
  unfold handlers_block. destruct (handlers_enabled it); [|reflexivity].
  steps. reflexivity.
Qed.

Lemma out_experiment_tracking_block it w s :
  out (experiment_tracking_block it w s)
  = if Js.truthy (logger it) && (get_rank w =? 0)
    then [SetupExpLogging;
          ExpLoggerAttach the_evaluator 15 "validation"
            {| ev_name := ITERATION_COMPLETED;
               ev_filter := filter_custom_event_filter |}]
    else [].
Proof.
  unfold experiment_tracking_block.
  destruct (Js.truthy (logger it)); [|reflexivity].
  destruct (get_rank w =? 0); [|reflexivity].
  steps. reflexivity.
Qed.

Lemma val_experiment_tracking_block it w s :
  val (experiment_tracking_block it w s)
  = if Js.truthy (logger it) && (get_rank w =? 0)
    then Some (setup_exp_logging w (config s)) else None.
Proof.
  unfold experiment_tracking_block.
  destruct (Js.truthy (logger it)); [|reflexivity].
  destruct (get_rank w =? 0); [|reflexivity].
  steps. reflexivity.
Qed.

Lemma out_close_logger_block it w s s' :
  out (close_logger_block it w (val (experiment_tracking_block it w s)) s')
  = if Js.truthy (logger it) && (get_rank w =? 0)
    then if isinstance_WandBLogger (setup_exp_logging w (config s))
         then [ExpLoggerFinish]
         else if logger_truthy (setup_exp_logging w (config s))
              then [ExpLoggerClose] else []
    else [].
Proof.
  rewrite val_experiment_tracking_block. unfold close_logger_block.
  destruct (Js.truthy (logger it)); [|reflexivity].
  destruct (get_rank w =? 0); [|reflexivity]. cbn [andb].
  destruct (isinstance_WandBLogger _); [reflexivity|].
  destruct (logger_truthy _); reflexivity.
Qed.

(** ** The trace of [run], block by block *)

Lemma run_trace_blocks it w lr c :
  let s1 := state_after_set_epoch w c in
  let hs := val (handlers_block it w s1) in
  let rc := resolved_config w c in
  run_trace it w lr c
  = preamble w c
    ++ out (handlers_block it w s1)
    ++ out (experiment_tracking_block it w s1)
    ++ map AddEventHandler (tail (registrations rc))
    ++ [TrainerRun (max_epochs rc) (train_epoch_length rc)]
    ++ flat_map (response it w hs c) (trainer_fires w)
    ++ out (close_logger_block it w
              (val (experiment_tracking_block it w s1)) (state_at_run w c))
    ++ out (last_checkpoint_block it hs (state_at_run w c)).
Proof.
  intros s1 hs rc. unfold run_trace, run. steps.
  rewrite !st_handlers_block, !st_experiment_tracking_block.
  rewrite !st_engine_run, out_engine_run.
  rewrite st_close_logger_block.
  reflexivity.
Qed.

Lemma out_last_checkpoint_block it hs s :
  out (last_checkpoint_block it hs s)
  = if handlers_enabled it then
      match hs with
      | Some r =>
          match ckpt_handler_train r with
          | Some k =>
              [LoggerInfo (msg_last_training_checkpoint (last_checkpoint k))]
          | None => []
          end
          ++ match ckpt_handler_eval r with
             | Some k =>
                 [LoggerInfo
                    (msg_last_evaluation_checkpoint (last_checkpoint k))]
             | None => []
             end
      | None => []
      end
    else [].
Proof.
  unfold last_checkpoint_block. destruct (handlers_enabled it); [|reflexivity].
  destruct hs as [r|]; [|reflexivity]. steps.
  destruct (ckpt_handler_train r), (ckpt_handler_eval r); reflexivity.
Qed.

(** ** The response of the registered handlers to one fired event *)

Lemma response_eq it w hs c f :
  let rc := resolved_config w c in
  response it w hs c f
  = match fired_name f with
    | EPOCH_STARTED =>
        if (1 <? get_world_size w) && sampler_is_distributed w
        then [SamplerSetEpoch (state_epoch f - 1)] else []
    | ITERATION_COMPLETED =>
        if state_iteration f mod log_every_iters rc =? 0
        then [LogMetrics the_trainer "train"] else []
    | EPOCH_COMPLETED =>
        (if handlers_enabled it then
           match hs with
           | Some r =>
               match the_timer r with
               | Some t =>
                   [LoggerInfo (msg_time_per_batch (timer_value t)); TimerReset]
               | None => []
               end
           | None => []
           end
         else [])
        ++ [EvaluatorRun (eval_epoch_length rc);
            LogMetrics the_evaluator "eval"]
    | STARTED => [EvaluatorRun (eval_epoch_length rc)]
    | _ => []
    end.
Proof.
  intros rc. unfold response, registrations, reg_set_epoch, state_at_run.
  fold rc. destruct f as [n e i].
  cbn [fire]. steps.
  rewrite ?st_handler_body, ?st_fire.
  unfold matches, passes, event_counter.
  cbn [engine_eqb reg_engine reg_event reg_handler ev_name ev_filter
       fired_name state_epoch state_iteration andb].
  rewrite Z.mod_1_r.
  destruct n; cbn [event_name_eqb andb out mret M_ret app handler_body emit];
    rewrite ?app_nil_r; try reflexivity.
  - destruct (_ && _); reflexivity.
  - destruct (_ =? 0); reflexivity.
  - cbn [Z.eqb]. steps.
    destruct (handlers_enabled it); [|reflexivity].
    destruct hs as [r|]; [|reflexivity].
    destruct (the_timer r); [|reflexivity]. steps. reflexivity.
Qed.

(** ** C1: the event filter of the image logger *)

Lemma py_and_true a b : py_and a b = true <-> a = true /\ b = true.
Proof. destruct a, b; cbn; intuition congruence. Qed.

(** C1.  [custom_event_filter] returns [True] exactly when the evaluation
    iteration is the middle batch, [len(dataloader_eval) // 2], and the
    trainer's epoch is a multiple of 3 or equals [config.max_epochs]; so the
    event [ITERATION_COMPLETED(event_filter=custom_event_filter)] the image
    handler is attached to matches a fired evaluator event exactly under
    these conditions. *)
Theorem custom_event_filter_spec (w : World) (c : Config)
    (epoch val_iteration : Z) (f : Fired) :
  (custom_event_filter (len_dataloader_eval w) epoch (max_epochs c)
     val_iteration = true
   <-> val_iteration = len_dataloader_eval w / 2
       /\ (epoch mod 3 = 0 \/ epoch = max_epochs c))
  /\ (matches w c epoch
        {| ev_name := ITERATION_COMPLETED;
           ev_filter := filter_custom_event_filter |} f = true
      <-> fired_name f = ITERATION_COMPLETED
          /\ state_iteration f = len_dataloader_eval w / 2
          /\ (epoch mod 3 = 0 \/ epoch = max_epochs c)).
Proof.
  assert (Hf : forall i,
    custom_event_filter (len_dataloader_eval w) epoch (max_epochs c) i = true
    <-> i = len_dataloader_eval w / 2
        /\ (epoch mod 3 = 0 \/ epoch = max_epochs c)).
  { intros i. unfold custom_event_filter.
    rewrite py_and_true, orb_true_iff, !Z.eqb_eq. reflexivity. }
  split; [apply Hf|].
  unfold matches, passes, event_counter. cbn [ev_name ev_filter].
  rewrite andb_true_iff.
  destruct f as [n e i]; cbn [fired_name state_iteration state_epoch].
  destruct n; cbn [event_name_eqb]; rewrite ?Hf;
    intuition (try discriminate; auto).
Qed.

(** ** C2: the shutdown of the experiment logger *)

Lemma filter_preamble_shutdown w c :
  List.filter is_logger_shutdown (preamble w c) = [].
Proof. reflexivity. Qed.

Lemma response_no_shutdown it w hs c f :
  List.filter is_logger_shutdown (response it w hs c f) = [].
Proof.
  rewrite response_eq. destruct (fired_name f); try reflexivity.
  - destruct (_ && _); reflexivity.
  - destruct (_ =? 0); reflexivity.
  - destruct (handlers_enabled it); [|reflexivity].
    destruct hs as [r|]; [|reflexivity]. destruct (the_timer r); reflexivity.
Qed.

Lemma filter_flat_map_nil {A B} (p : B -> bool) (g : A -> list B) l :
  (forall a, List.filter p (g a) = []) -> List.filter p (flat_map g l) = [].
Proof.
  intros H. induction l as [|a l IH]; cbn [flat_map]; [reflexivity|].
  rewrite List.filter_app, H, IH. reflexivity.
Qed.

Lemma filter_flat_map {A B} (p : B -> bool) (g : A -> list B) l :
  List.filter p (flat_map g l) = flat_map (fun a => List.filter p (g a)) l.
Proof.
  induction l as [|a l IH]; cbn [flat_map]; [reflexivity|].
  rewrite List.filter_app, IH. reflexivity.
Qed.

Lemma filter_last_checkpoint_nil p it hs s :
  (forall m, p (LoggerInfo m) = false) ->
  List.filter p (out (last_checkpoint_block it hs s)) = [].
Proof.
  intros H. rewrite out_last_checkpoint_block.
  destruct (handlers_enabled it); [|reflexivity].
  destruct hs as [r|]; [|reflexivity].
  destruct (ckpt_handler_train r), (ckpt_handler_eval r); cbn;
    rewrite ?H; reflexivity.
Qed.

(** The blocks that do not depend on the experiment logger. *)
Lemma run_trace_with_exp_logger it w lr c lg :
  List.filter (fun e => negb (is_logger_shutdown e))
    (run_trace it (with_exp_logger lg w) lr c)
  = List.filter (fun e => negb (is_logger_shutdown e)) (run_trace it w lr c).
Proof.
  rewrite !run_trace_blocks. cbv zeta.
  rewrite !List.filter_app.
  apply (f_equal2 app); [reflexivity|].
  apply (f_equal2 app); [rewrite !out_handlers_block; reflexivity|].
  apply (f_equal2 app);
    [rewrite !out_experiment_tracking_block; reflexivity|].
  apply (f_equal2 app); [reflexivity|].
  apply (f_equal2 app); [reflexivity|].
  apply (f_equal2 app).
  { rewrite !filter_flat_map. apply flat_map_ext. intros f.
    rewrite !response_eq. reflexivity. }
  apply (f_equal2 app).
  - rewrite !out_close_logger_block.
    change (get_rank (with_exp_logger lg w)) with (get_rank w).
    destruct (_ && _); [|reflexivity].
    cbn [with_exp_logger setup_exp_logging].
    generalize (setup_exp_logging w (config (state_after_set_epoch w c))).
    intros lg'.
    destruct (isinstance_WandBLogger lg), (logger_truthy lg),
      (isinstance_WandBLogger lg'), (logger_truthy lg'); reflexivity.
  - rewrite !out_last_checkpoint_block. reflexivity.
Qed.

(** ** C3: the handler-setup block *)

Lemma handlers_enabled_iff it :
  handlers_enabled it = true
  <-> Js.truthy (save_training it) = true
      \/ Js.truthy (save_evaluation it) = true
      \/ Js.truthy (patience it) = true
      \/ Js.truthy (terminate_on_nan it) = true
      \/ Js.truthy (timer it) = true
      \/ Js.truthy (limit_sec it) = true.
Proof. unfold handlers_enabled. rewrite !orb_true_iff. tauto. Qed.

Lemma response_no_setup_handlers it w hs c f :
  List.filter is_setup_handlers (response it w hs c f) = [].
Proof.
  rewrite response_eq. destruct (fired_name f); try reflexivity.
  - destruct (_ && _); reflexivity.
  - destruct (_ =? 0); reflexivity.
  - destruct (handlers_enabled it); [|reflexivity].
    destruct hs as [r|]; [|reflexivity]. destruct (the_timer r); reflexivity.
Qed.

Lemma filter_close_logger_nil p it w lg s :
  p ExpLoggerFinish = false -> p ExpLoggerClose = false ->
  List.filter p (out (close_logger_block it w lg s)) = [].
Proof.
  intros H1 H2. unfold close_logger_block.
  destruct (Js.truthy (logger it)); [|reflexivity].
  destruct (get_rank w =? 0); [|reflexivity].
  destruct lg as [lg|]; [|reflexivity].
  destruct (isinstance_WandBLogger lg); [cbn; rewrite H1; reflexivity|].
  destruct (logger_truthy lg); [cbn; rewrite H2; reflexivity|reflexivity].
Qed.

Lemma filter_experiment_tracking_nil p it w s :
  p SetupExpLogging = false ->
  (forall e n t ev, p (ExpLoggerAttach e n t ev) = false) ->
  List.filter p (out (experiment_tracking_block it w s)) = [].
Proof.
  intros H1 H2. rewrite out_experiment_tracking_block.
  destruct (_ && _); [|reflexivity]. cbn. rewrite H1, H2. reflexivity.
Qed.

(** C3.  [setup_handlers] is called, once, exactly when one of the six
    options [save_training], [save_evaluation], [patience],
    [terminate_on_nan], [timer], [limit_sec] is set; [to_save_train] is then
    the dictionary with the keys [model], [optimizer], [trainer],
    [lr_scheduler] when [save_training] is set and [None] otherwise, and
    [to_save_eval] is [{"model": model}] when [save_evaluation] is set and
    [None] otherwise. *)
Theorem handler_setup_gating (it : It) (w : World) (local_rank : Z)
    (c : Config) :
  (handlers_enabled it = true
   <-> Js.truthy (save_training it) = true
       \/ Js.truthy (save_evaluation it) = true
       \/ Js.truthy (patience it) = true
       \/ Js.truthy (terminate_on_nan it) = true
       \/ Js.truthy (timer it) = true
       \/ Js.truthy (limit_sec it) = true)
  /\ List.filter is_setup_handlers (run_trace it w local_rank c)
     = (if handlers_enabled it then
          [SetupHandlers
             (if Js.truthy (save_training it)
              then Some to_save_train_dict else None)
             (if Js.truthy (save_evaluation it)
              then Some to_save_eval_dict else None)]
        else [])
  /\ dom to_save_train_dict
     = ({["model"; "optimizer"; "trainer"; "lr_scheduler"]} : gset string)
  /\ to_save_train_dict !! "model" = Some model
  /\ to_save_train_dict !! "optimizer" = Some optimizer
  /\ to_save_train_dict !! "trainer" = Some trainer
  /\ to_save_train_dict !! "lr_scheduler" = Some lr_scheduler
  /\ to_save_eval_dict = {["model" := model]}.
Proof.
  split; [apply handlers_enabled_iff|]. split.
  - rewrite run_trace_blocks. cbv zeta.
    rewrite !List.filter_app.
    rewrite (filter_flat_map_nil _ _ _ (response_no_setup_handlers it w _ c)).
    rewrite filter_last_checkpoint_nil by reflexivity.
    rewrite filter_close_logger_nil by reflexivity.
    rewrite filter_experiment_tracking_nil by reflexivity.
    rewrite out_handlers_block.
    destruct (handlers_enabled it); reflexivity.
  - unfold to_save_train_dict, to_save_eval_dict.
    split; [rewrite !dom_insert_L, dom_singleton_L; set_solver|].
    repeat split; by simplify_map_eq.
Qed.

(** ** C4: the arguments of [idist.Parallel] *)

Lemma main_parallel it pa c0 :
  List.filter is_parallel (main_trace it pa c0)
  = if Js.strict_eq (dist it) (Js.Str "spawn") then
      match spawn_kwargs it pa with
      | Some kwargs => [Parallel (backend pa) kwargs]
      | None => []
      end
    else [Parallel (backend pa) ∅].
Proof.
  unfold main_trace, main. steps.
  destruct (Js.strict_eq _ _).
  - destruct (spawn_kwargs it pa); steps; reflexivity.
  - steps. reflexivity.
Qed.

(** C4.  With [dist] equal to ['spawn'], [idist.Parallel] receives the
    backend and, when [nproc_per_node], [master_addr] and [master_port] are
    set and [nnodes] exceeds 1, exactly the five keyword arguments
    [nproc_per_node], [nnodes], [node_rank], [master_addr], [master_port]
    read from [config]; otherwise, when [nproc_per_node] is set, exactly
    [nproc_per_node].  With any other [dist] it receives the backend and no
    keyword argument. *)
Theorem parallel_kwargs (it : It) (parse_args c0 : Config) :
  (Js.strict_eq (dist it) (Js.Str "spawn") = true ->
   Js.truthy (it_nproc_per_node it) = true ->
   Js.gt (it_nnodes it) 1 = true ->
   Js.truthy (it_master_addr it) = true ->
   Js.truthy (it_master_port it) = true ->
   exists kwargs,
     List.filter is_parallel (main_trace it parse_args c0)
     = [Parallel (backend parse_args) kwargs]
     /\ dom kwargs
        = ({["nproc_per_node"; "nnodes"; "node_rank"; "master_addr";
             "master_port"]} : gset string)
     /\ kwargs !! "nproc_per_node" = Some (nproc_per_node parse_args)
     /\ kwargs !! "nnodes" = Some (nnodes parse_args)
     /\ kwargs !! "node_rank" = Some (node_rank parse_args)
     /\ kwargs !! "master_addr" = Some (master_addr parse_args)
     /\ kwargs !! "master_port" = Some (master_port parse_args))
  /\ (Js.strict_eq (dist it) (Js.Str "spawn") = true ->
      Js.truthy (it_nproc_per_node it) = true ->
      multi_node it = false ->
      List.filter is_parallel (main_trace it parse_args c0)
      = [Parallel (backend parse_args)
           {["nproc_per_node" := nproc_per_node parse_args]}])
  /\ (Js.strict_eq (dist it) (Js.Str "spawn") = false ->
      List.filter is_parallel (main_trace it parse_args c0)
      = [Parallel (backend parse_args) ∅]).
Proof.
  rewrite main_parallel. repeat split.
  - intros -> Hn Hg Ha Hp. unfold spawn_kwargs, multi_node.
    rewrite Hn, Hg, Ha, Hp. cbn [andb].
    eexists. split; [reflexivity|].
    split; [rewrite !dom_insert_L, dom_singleton_L; set_solver|].
    repeat split; by simplify_map_eq.
  - intros -> Hn Hm. unfold spawn_kwargs. rewrite Hm, Hn. reflexivity.
  - intros ->. reflexivity.
Qed.

(** ** C5: the configuration lock file *)

Lemma response_no_artifact_step it w hs c f :
  List.filter is_artifact_step (response it w hs c f) = [].
Proof.
  rewrite response_eq. destruct (fired_name f); try reflexivity.
  - destruct (_ && _); reflexivity.
  - destruct (_ =? 0); reflexivity.
  - destruct (handlers_enabled it); [|reflexivity].
    destruct hs as [r|]; [|reflexivity]. destruct (the_timer r); reflexivity.
Qed.

(** ** C6: the order of the phases *)

Lemma phases_of_app l1 l2 : phases_of (l1 ++ l2) = phases_of l1 ++ phases_of l2.
Proof. apply omap_app. Qed.

Lemma phase_rank_le_7 l : Forall (fun p => (phase_rank p <= 7)%nat) l.
Proof. apply Forall_forall. intros p _. destruct p; cbn; lia. Qed.

Lemma sorted_between (mid : nat) (l1 l2 : list phase) :
  StronglySorted phase_le l1 -> StronglySorted phase_le l2 ->
  Forall (fun p => (phase_rank p <= mid)%nat) l1 ->
  Forall (fun p => (mid <= phase_rank p)%nat) l2 ->
  StronglySorted phase_le (l1 ++ l2).
Proof.
  intros S1 S2 B1 B2. apply StronglySorted_app_2; [|assumption..].
  intros p q Hp Hq. rewrite Forall_forall in B1, B2.
  specialize (B1 p Hp). specialize (B2 q Hq). unfold phase_le. lia.
Qed.

Lemma sorted_single_phase (q : phase) (l : list phase) :
  Forall (fun p => p = q) l -> StronglySorted phase_le l.
Proof.
  intros H. induction H as [|p l Hp Hl IH]; [constructor|].
  subst p. constructor; [exact IH|].
  eapply Forall_impl; [exact Hl|]. intros p ->. unfold phase_le. lia.
Qed.

Lemma single_phase_rank (q : phase) (l : list phase) :
  Forall (fun p => p = q) l ->
  Forall (fun p => (phase_rank q <= phase_rank p)%nat) l.
Proof. intros H. eapply Forall_impl; [eassumption|]. intros p ->. lia. Qed.

Lemma phases_response it w hs c f :
  Forall (fun p => p = run_loop) (phases_of (response it w hs c f)).
Proof.
  rewrite response_eq. destruct (fired_name f); try (repeat constructor).
  - destruct (_ && _); repeat constructor.
  - destruct (_ =? 0); repeat constructor.
  - destruct (handlers_enabled it); [|repeat constructor].
    destruct hs as [r|]; [|repeat constructor].
    destruct (the_timer r); repeat constructor.
Qed.

Lemma phases_engine_run it w hs c fs :
  Forall (fun p => p = run_loop) (phases_of (flat_map (response it w hs c) fs)).
Proof.
  induction fs as [|f fs IH]; cbn [flat_map]; [constructor|].
  rewrite phases_of_app. apply Forall_app. split; [apply phases_response|assumption].
Qed.

Lemma phases_close_logger it w lg s :
  Forall (fun p => p = teardown) (phases_of (out (close_logger_block it w lg s))).
Proof.
  unfold close_logger_block.
  destruct (Js.truthy (logger it)); [|constructor].
  destruct (get_rank w =? 0); [|constructor].
  destruct lg as [lg|]; [|constructor].
  destruct (isinstance_WandBLogger lg); [repeat constructor|].
  destruct (logger_truthy lg); repeat constructor.
Qed.

Lemma phases_last_checkpoint it hs s :
  Forall (fun p => p = teardown)
    (phases_of (out (last_checkpoint_block it hs s))).
Proof.
  rewrite out_last_checkpoint_block.
  destruct (handlers_enabled it); [|constructor].
  destruct hs as [r|]; [|constructor].
  destruct (ckpt_handler_train r), (ckpt_handler_eval r); repeat constructor.
Qed.

(** The phases up to and including the call of [trainer.run]. *)
Lemma phases_setup it w c :
  let s1 := state_after_set_epoch w c in
  let rc := resolved_config w c in
  let l := phases_of
    (((((preamble w c ++ out (handlers_block it w s1))
        ++ out (experiment_tracking_block it w s1))
       ++ map AddEventHandler (tail (registrations rc)))
      ++ [TrainerRun (max_epochs rc) (train_epoch_length rc)])) in
  StronglySorted phase_le l
  /\ Forall (fun p => (phase_rank p <= 6)%nat) l
  /\ Forall (fun p => p ∈ l)
       [dataset_setup; model_construction; metric_setup; engine_construction;
        handler_registration; run_loop].
Proof.
  intros s1 rc l. subst l.
  rewrite out_handlers_block, out_experiment_tracking_block.
  destruct (handlers_enabled it), (Js.truthy (logger it) && (get_rank w =? 0));
    cbn; (split; [|split]);
    repeat (constructor; cbn; try lia);
    repeat first [ apply list_elem_of_here | apply list_elem_of_further ].
Qed.

(** ** C7 and C9: what runs on each fired event *)

Lemma response_metric_logging it w hs c f :
  List.filter is_metric_logging (response it w hs c f)
  = match fired_name f with
    | STARTED => [EvaluatorRun (eval_epoch_length c)]
    | ITERATION_COMPLETED =>
        if state_iteration f mod log_every_iters c =? 0
        then [LogMetrics the_trainer "train"] else []
    | EPOCH_COMPLETED =>
        [EvaluatorRun (eval_epoch_length c); LogMetrics the_evaluator "eval"]
    | _ => []
    end.
Proof.
  rewrite response_eq. cbv zeta.
  change (log_every_iters (resolved_config w c)) with (log_every_iters c).
  change (eval_epoch_length (resolved_config w c)) with (eval_epoch_length c).
  destruct (fired_name f); try reflexivity.
  - destruct (_ && _); reflexivity.
  - destruct (_ =? 0); reflexivity.
  - destruct (handlers_enabled it); [|reflexivity].
    destruct hs as [r|]; [|reflexivity]. destruct (the_timer r); reflexivity.
Qed.

Lemma filter_handlers_block_nil p it w s :
  (forall a b, p (SetupHandlers a b) = false) ->
  List.filter p (out (handlers_block it w s)) = [].
Proof.
  intros H. rewrite out_handlers_block.
  destruct (handlers_enabled it); [|reflexivity]. cbn. rewrite H. reflexivity.
Qed.

(** A view that sees none of the calls outside the run loop. *)
Lemma filter_run_loop_only p it w lr c :
  List.filter p (preamble w c) = [] ->
  (forall r, p (AddEventHandler r) = false) ->
  (forall a b, p (SetupHandlers a b) = false) ->
  p SetupExpLogging = false ->
  (forall e n t ev, p (ExpLoggerAttach e n t ev) = false) ->
  (forall n l, p (TrainerRun n l) = false) ->
  p ExpLoggerFinish = false -> p ExpLoggerClose = false ->
  (forall m, p (LoggerInfo m) = false) ->
  List.filter p (run_trace it w lr c)
  = flat_map
      (fun f => List.filter p
         (response it w (val (handlers_block it w (state_after_set_epoch w c)))
            c f))
      (trainer_fires w).
Proof.
  intros Hpre Hadd Hsh Hsel Hatt Hrun Hfin Hclo Hinfo.
  rewrite run_trace_blocks. cbv zeta.
  rewrite !List.filter_app, Hpre.
  rewrite filter_handlers_block_nil by assumption.
  rewrite filter_experiment_tracking_nil by assumption.
  rewrite filter_close_logger_nil by assumption.
  rewrite filter_last_checkpoint_nil by assumption.
  cbn [registrations tail map List.filter]. rewrite !Hadd, Hrun.
  cbn [app]. rewrite app_nil_r. apply filter_flat_map.
Qed.

(** C7.  With a positive [config.log_every_iters] (the only values the
    engine library accepts for [every]), the calls of
    [log_metrics] and [evaluator.run] made by [run] are, event by event of
    the training run: on [ITERATION_COMPLETED], [log_metrics] with tag
    ["train"] when the iteration count is a multiple of
    [config.log_every_iters] and nothing otherwise; on [EPOCH_COMPLETED],
    [evaluator.run] followed by one [log_metrics] of the evaluator with tag
    ["eval"]; on [STARTED], [evaluator.run] alone; nothing on any other
    event or outside the training run. *)
Theorem metric_logging_schedule (it : It) (w : World) (local_rank : Z)
    (c : Config) :
  0 < log_every_iters c ->
  List.filter is_metric_logging (run_trace it w local_rank c)
  = flat_map
      (fun f =>
         match fired_name f with
         | STARTED => [EvaluatorRun (eval_epoch_length c)]
         | ITERATION_COMPLETED =>
             if state_iteration f mod log_every_iters c =? 0
             then [LogMetrics the_trainer "train"] else []
         | EPOCH_COMPLETED =>
             [EvaluatorRun (eval_epoch_length c);
              LogMetrics the_evaluator "eval"]
         | _ => []
         end)
      (trainer_fires w).
Proof.
  intros _. rewrite filter_run_loop_only by reflexivity.
  apply flat_map_ext. intros f. apply response_metric_logging.
Qed.

Lemma response_evaluator_run it w hs c f :
  List.filter is_evaluator_run (response it w hs c f)
  = if is_name STARTED f || is_name EPOCH_COMPLETED f
    then [EvaluatorRun (eval_epoch_length c)] else [].
Proof.
  rewrite response_eq. cbv zeta. unfold is_name.
  change (eval_epoch_length (resolved_config w c)) with (eval_epoch_length c).
  destruct (fired_name f); try reflexivity.
  - destruct (_ && _); reflexivity.
  - destruct (_ =? 0); reflexivity.
  - destruct (handlers_enabled it); [|reflexivity].
    destruct hs as [r|]; [|reflexivity]. destruct (the_timer r); reflexivity.
Qed.

(** C9.  The calls of [evaluator.run] made by [run] are, in order, one for
    each [STARTED] and each [EPOCH_COMPLETED] event the trainer fires, each
    with [epoch_length=config.eval_epoch_length]; there is no other. *)
Theorem evaluator_runs (it : It) (w : World) (local_rank : Z) (c : Config) :
  List.filter is_evaluator_run (run_trace it w local_rank c)
  = flat_map
      (fun f =>
         if is_name STARTED f || is_name EPOCH_COMPLETED f
         then [EvaluatorRun (eval_epoch_length c)] else [])
      (trainer_fires w).
Proof.
  rewrite filter_run_loop_only by reflexivity.
  apply flat_map_ext. intros f. apply response_evaluator_run.
Qed.

(** ** C8: the seed *)

Lemma response_no_manual_seed it w hs c f :
  List.filter is_manual_seed (response it w hs c f) = [].
Proof.
  rewrite response_eq. destruct (fired_name f); try reflexivity.
  - destruct (_ && _); reflexivity.
  - destruct (_ =? 0); reflexivity.
  - destruct (handlers_enabled it); [|reflexivity].
    destruct hs as [r|]; [|reflexivity]. destruct (the_timer r); reflexivity.
Qed.

Lemma manual_seed_calls it w lr c :
  List.filter is_manual_seed (run_trace it w lr c)
  = [ManualSeed (seed c + get_rank w)].
Proof.
  rewrite run_trace_blocks. cbv zeta. rewrite !List.filter_app.
  rewrite filter_handlers_block_nil by reflexivity.
  rewrite filter_experiment_tracking_nil by reflexivity.
  rewrite filter_close_logger_nil by reflexivity.
  rewrite filter_last_checkpoint_nil by reflexivity.
  rewrite (filter_flat_map_nil _ _ _ (response_no_manual_seed it w _ c)).
  reflexivity.
Qed.

(** C8.  [run] seeds the generators once, as its first call, with
    [config.seed + rank]; for one configuration, processes of different
    ranks use different seeds and processes of the same rank the same
    seed. *)
Theorem seed_by_rank (it : It) (w1 w2 : World) (lr1 lr2 : Z) (c : Config) :
  head (run_trace it w1 lr1 c) = Some (ManualSeed (seed c + get_rank w1))
  /\ List.filter is_manual_seed (run_trace it w1 lr1 c)
     = [ManualSeed (seed c + get_rank w1)]
  /\ (get_rank w1 <> get_rank w2 ->
      List.filter is_manual_seed (run_trace it w1 lr1 c)
      <> List.filter is_manual_seed (run_trace it w2 lr2 c))
  /\ (get_rank w1 = get_rank w2 ->
      List.filter is_manual_seed (run_trace it w1 lr1 c)
      = List.filter is_manual_seed (run_trace it w2 lr2 c)).
Proof.
  rewrite !manual_seed_calls. repeat split.
  - rewrite run_trace_blocks. reflexivity.
  - intros Hne Heq. apply Hne. injection Heq as Heq. lia.
  - intros ->. reflexivity.
Qed.

(** ** C10: experiment tracking happens on rank 0 only *)

Lemma response_no_experiment_tracking it w hs c f :
  List.filter is_experiment_tracking (response it w hs c f) = [].
Proof.
  rewrite response_eq. destruct (fired_name f); try reflexivity.
  - destruct (_ && _); reflexivity.
  - destruct (_ =? 0); reflexivity.
  - destruct (handlers_enabled it); [|reflexivity].
    destruct hs as [r|]; [|reflexivity]. destruct (the_timer r); reflexivity.
Qed.

(** C10.  A process whose rank is not 0 never creates an experiment logger,
    attaches the image handler to one, or finishes or closes one. *)
Theorem experiment_tracking_rank0_only (it : It) (w : World) (local_rank : Z)
    (c : Config) :
  get_rank w <> 0 ->
  List.filter is_experiment_tracking (run_trace it w local_rank c) = [].
Proof.
  intros Hrank. apply Z.eqb_neq in Hrank.
  rewrite run_trace_blocks. cbv zeta. rewrite !List.filter_app.
  rewrite filter_handlers_block_nil by reflexivity.
  rewrite filter_last_checkpoint_nil by reflexivity.
  rewrite (filter_flat_map_nil _ _ _
             (response_no_experiment_tracking it w _ c)).
  rewrite out_experiment_tracking_block, out_close_logger_block.
  rewrite Hrank, andb_false_r. reflexivity.
Qed.

(** The sanity check comes first: when the engine fires [STARTED] first, the
    first metric-related call of [run] is the evaluator run. *)
Lemma sanity_check_first it w lr c f fs :
  trainer_fires w = f :: fs -> fired_name f = STARTED ->
  head (List.filter is_metric_logging (run_trace it w lr c))
  = Some (EvaluatorRun (eval_epoch_length c)).
Proof.
  intros Hfs Hf. rewrite filter_run_loop_only by reflexivity.
  rewrite Hfs. cbn [flat_map]. rewrite response_metric_logging, Hf.
  reflexivity.
Qed.

(** ** The sample run *)

Example custom_event_filter_mid_epoch3 :
  custom_event_filter 10 3 20 5 = true.
Proof. reflexivity. Qed.

Example custom_event_filter_last_epoch :
  custom_event_filter 11 20 20 5 = true.
Proof. reflexivity. Qed.

Example custom_event_filter_other_epoch :
  custom_event_filter 10 4 20 5 = false.
Proof. reflexivity. Qed.

Example custom_event_filter_other_batch :
  custom_event_filter 10 3 20 6 = false.
Proof. reflexivity. Qed.

Example sample_run_metric_logging :
  List.filter is_metric_logging
    (run_trace sample_it (sample_world 0) 0 sample_config)
  = [ EvaluatorRun None;
      LogMetrics the_trainer "train";
      EvaluatorRun None; LogMetrics the_evaluator "eval";
      LogMetrics the_trainer "train";
      LogMetrics the_trainer "train";
      EvaluatorRun None; LogMetrics the_evaluator "eval" ].
Proof. vm_compute. reflexivity. Qed.

Example sample_run_rank0_tracking :
  List.filter is_experiment_tracking
    (run_trace sample_it (sample_world 0) 0 sample_config)
  = [ SetupExpLogging;
      ExpLoggerAttach the_evaluator 15 "validation"
        {| ev_name := ITERATION_COMPLETED;
           ev_filter := filter_custom_event_filter |};
      ExpLoggerFinish ].
Proof. vm_compute. reflexivity. Qed.

Example sample_run_phases :
  phases_of (run_trace sample_it_launched (sample_world 1) 1 sample_config)
  = [ dataset_setup ]
    ++ replicate 4 model_construction
    ++ replicate 3 metric_setup
    ++ replicate 2 engine_construction
    ++ replicate 4 handler_registration
    ++ replicate 11 run_loop.
Proof. vm_compute. reflexivity. Qed.

Example sample_main_spawn_without_nproc :
  val (main {| save_training := Js.Bool false; save_evaluation := Js.Bool false;
               patience := Js.Undefined; terminate_on_nan := Js.Bool false;
               timer := Js.Bool false; limit_sec := Js.Undefined;
               logger := Js.Undefined; dist := Js.Str "spawn";
               it_nproc_per_node := Js.Undefined; it_nnodes := None;
               it_master_addr := Js.Undefined;
               it_master_port := Js.Undefined |}
         sample_config {| config := sample_config; registered := [] |})
  = raised (NameError "kwargs").
Proof. reflexivity. Qed.

(** ** Instances of the conditional theorems on the sample inputs *)

Lemma parallel_kwargs_witness :
  (exists kwargs,
     List.filter is_parallel (main_trace sample_it sample_config sample_config)
     = [Parallel (PyStr "nccl") kwargs]
     /\ dom kwargs
        = ({["nproc_per_node"; "nnodes"; "node_rank"; "master_addr";
             "master_port"]} : gset string)
     /\ kwargs !! "nproc_per_node" = Some (PyInt 2)
     /\ kwargs !! "nnodes" = Some (PyInt 2)
     /\ kwargs !! "node_rank" = Some (PyInt 0)
     /\ kwargs !! "master_addr" = Some (PyStr "127.0.0.1")
     /\ kwargs !! "master_port" = Some (PyInt 8080))
  /\ List.filter is_parallel
       (main_trace sample_it_single_node sample_config sample_config)
     = [Parallel (PyStr "nccl") {["nproc_per_node" := PyInt 2]}]
  /\ List.filter is_parallel
       (main_trace sample_it_launched sample_config sample_config)
     = [Parallel (PyStr "nccl") ∅].
Proof.
  split; [|split].
  - apply (proj1 (parallel_kwargs sample_it sample_config sample_config));
      reflexivity.
  - apply (proj1 (proj2 (parallel_kwargs sample_it_single_node sample_config
                           sample_config))); reflexivity.
  - apply (proj2 (proj2 (parallel_kwargs sample_it_launched sample_config
                           sample_config))); reflexivity.
Defined.

Lemma metric_logging_schedule_witness :
  0 < log_every_iters sample_config
  /\ List.filter is_metric_logging
       (run_trace sample_it (sample_world 0) 0 sample_config)
     = flat_map
         (fun f =>
            match fired_name f with
            | STARTED => [EvaluatorRun (eval_epoch_length sample_config)]
            | ITERATION_COMPLETED =>
                if state_iteration f mod log_every_iters sample_config =? 0
                then [LogMetrics the_trainer "train"] else []
            | EPOCH_COMPLETED =>
                [EvaluatorRun (eval_epoch_length sample_config);
                 LogMetrics the_evaluator "eval"]
            | _ => []
            end)
         (trainer_fires (sample_world 0)).
Proof.
  split; [reflexivity|].
  apply (metric_logging_schedule sample_it (sample_world 0) 0 sample_config).
  reflexivity.
Defined.

Lemma seed_by_rank_witness :
  get_rank (sample_world 0) <> get_rank (sample_world 1)
  /\ List.filter is_manual_seed
       (run_trace sample_it (sample_world 0) 0 sample_config)
     <> List.filter is_manual_seed
          (run_trace sample_it (sample_world 1) 1 sample_config)
  /\ get_rank (sample_world 1) = get_rank (sample_world 1)
  /\ List.filter is_manual_seed
       (run_trace sample_it (sample_world 1) 0 sample_config)
     = List.filter is_manual_seed
         (run_trace sample_it (sample_world 1) 1 sample_config).
Proof.
  split; [discriminate|]. split.
  - apply (proj1 (proj2 (proj2 (seed_by_rank sample_it (sample_world 0)
                                  (sample_world 1) 0 1 sample_config)))).
    discriminate.
  - split; [reflexivity|].
    apply (proj2 (proj2 (proj2 (seed_by_rank sample_it (sample_world 1)
                                  (sample_world 1) 0 1 sample_config)))).
    reflexivity.
Defined.

Lemma experiment_tracking_rank0_only_witness :
  get_rank (sample_world 1) <> 0
  /\ List.filter is_experiment_tracking
       (run_trace sample_it (sample_world 1) 1 sample_config) = [].
Proof.
  split; [discriminate|].
  apply (experiment_tracking_rank0_only sample_it (sample_world 1) 1
           sample_config).
  discriminate.
Defined.

(** * Further properties of [run] and [main] *)

Lemma val_handlers_block it w s :
  val (handlers_block it w s)
  = if handlers_enabled it
    then Some (setup_handlers w (config s) (to_save_train it) (to_save_eval it))
    else None.
Proof.
  unfold handlers_block. destruct (handlers_enabled it); [|reflexivity].
  steps. reflexivity.
Qed.

Lemma st_last_checkpoint_block it hs s : st (last_checkpoint_block it hs s) = s.
Proof.
  unfold last_checkpoint_block. destruct (handlers_enabled it); [|reflexivity].
  destruct hs as [r|]; [|reflexivity]. steps.
  destruct (ckpt_handler_train r), (ckpt_handler_eval r); reflexivity.
Qed.

Lemma filter_last_checkpoint_msgs_nil p it hs s :
  (forall n, p (LoggerInfo (msg_last_training_checkpoint n)) = false) ->
  (forall n, p (LoggerInfo (msg_last_evaluation_checkpoint n)) = false) ->
  List.filter p (out (last_checkpoint_block it hs s)) = [].
Proof.
  intros H1 H2. rewrite out_last_checkpoint_block.
  destruct (handlers_enabled it); [|reflexivity].
  destruct hs as [r|]; [|reflexivity].
  destruct (ckpt_handler_train r), (ckpt_handler_eval r); cbn;
    rewrite ?H1, ?H2; reflexivity.
Qed.

(** As [filter_run_loop_only], for a view that may see the timer report. *)
Lemma filter_run_loop_only_msgs p it w lr c :
  List.filter p (preamble w c) = [] ->
  (forall r, p (AddEventHandler r) = false) ->
  (forall a b, p (SetupHandlers a b) = false) ->
  p SetupExpLogging = false ->
  (forall e n t ev, p (ExpLoggerAttach e n t ev) = false) ->
  (forall n l, p (TrainerRun n l) = false) ->
  p ExpLoggerFinish = false -> p ExpLoggerClose = false ->
  (forall n, p (LoggerInfo (msg_last_training_checkpoint n)) = false) ->
  (forall n, p (LoggerInfo (msg_last_evaluation_checkpoint n)) = false) ->
  List.filter p (run_trace it w lr c)
  = flat_map
      (fun f => List.filter p
         (response it w (val (handlers_block it w (state_after_set_epoch w c)))
            c f))
      (trainer_fires w).
Proof.
  intros Hpre Hadd Hsh Hsel Hatt Hrun Hfin Hclo Ht He.
  rewrite run_trace_blocks. cbv zeta.
  rewrite !List.filter_app, Hpre.
  rewrite filter_handlers_block_nil by assumption.
  rewrite filter_experiment_tracking_nil by assumption.
  rewrite filter_close_logger_nil by assumption.
  rewrite filter_last_checkpoint_msgs_nil by assumption.
  cbn [registrations tail map List.filter]. rewrite !Hadd, Hrun.
  cbn [app]. rewrite app_nil_r. apply filter_flat_map.
Qed.

(** ** X1: the epoch of the distributed sampler (lines 76-81) *)

Lemma response_sampler it w hs c f :
  List.filter is_sampler_set_epoch (response it w hs c f)
  = if is_name EPOCH_STARTED f
    then if (1 <? get_world_size w) && sampler_is_distributed w
         then [SamplerSetEpoch (state_epoch f - 1)] else []
    else [].
Proof.
  rewrite response_eq. cbv zeta. unfold is_name.
  destruct (fired_name f); try reflexivity.
  - destruct (_ && _); reflexivity.
  - destruct (_ =? 0); reflexivity.
  - destruct (handlers_enabled it); [|reflexivity].
    destruct hs as [r|]; [|reflexivity]. destruct (the_timer r); reflexivity.
Qed.

(** X1.  [sampler.set_epoch] is called once for each [EPOCH_STARTED] event,
    with the trainer's epoch minus one, when the world size exceeds 1 and
    the training sampler is a [DistributedSampler]; it is never called
    otherwise. *)
Theorem sampler_epoch_calls (it : It) (w : World) (local_rank : Z)
    (c : Config) :
  List.filter is_sampler_set_epoch (run_trace it w local_rank c)
  = if (1 <? get_world_size w) && sampler_is_distributed w
    then map (fun f => SamplerSetEpoch (state_epoch f - 1))
           (List.filter (is_name EPOCH_STARTED) (trainer_fires w))
    else [].
Proof.
  rewrite filter_run_loop_only by reflexivity.
  induction (trainer_fires w) as [|f fs IH]; cbn [flat_map List.filter map].
  - destruct (_ && _); reflexivity.
  - rewrite IH, response_sampler.
    destruct (is_name EPOCH_STARTED f), (_ && _); reflexivity.
Qed.

(** ** X2: the timer report (lines 159-167) *)

Lemma response_timer_or_evaluator it w hs c f :
  List.filter is_timer_or_evaluator (response it w hs c f)
  = match fired_name f with
    | STARTED => [EvaluatorRun (eval_epoch_length c)]
    | EPOCH_COMPLETED =>
        (if handlers_enabled it then
           match hs with
           | Some r =>
               match the_timer r with
               | Some t =>
                   [LoggerInfo (msg_time_per_batch (timer_value t)); TimerReset]
               | None => []
               end
           | None => []
           end
         else [])
        ++ [EvaluatorRun (eval_epoch_length c)]
    | _ => []
    end.
Proof.
  rewrite response_eq. cbv zeta.
  change (eval_epoch_length (resolved_config w c)) with (eval_epoch_length c).
  destruct (fired_name f); try reflexivity.
  - destruct (_ && _); reflexivity.
  - destruct (_ =? 0); reflexivity.
  - destruct (handlers_enabled it); [|reflexivity].
    destruct hs as [r|]; [|reflexivity]. destruct (the_timer r); reflexivity.
Qed.

(** X2.  At each [EPOCH_COMPLETED] event, [run] logs the time per batch and
    resets the timer before it runs the evaluator, when one of the six
    handler options is set and [setup_handlers] returned a timer; with no
    such option, or with a [None] timer, the evaluator run comes alone.  The
    timer is never touched on another event. *)
Theorem timer_report_schedule (it : It) (w : World) (local_rank : Z)
    (c : Config) :
  List.filter is_timer_or_evaluator (run_trace it w local_rank c)
  = flat_map
      (fun f =>
         match fired_name f with
         | STARTED => [EvaluatorRun (eval_epoch_length c)]
         | EPOCH_COMPLETED =>
             (if handlers_enabled it then
                match the_timer (handlers_of_run it w c) with
                | Some t =>
                    [LoggerInfo (msg_time_per_batch (timer_value t));
                     TimerReset]
                | None => []
                end
              else [])
             ++ [EvaluatorRun (eval_epoch_length c)]
         | _ => []
         end)
      (trainer_fires w).
Proof.
  rewrite filter_run_loop_only_msgs by reflexivity.
  apply flat_map_ext. intros f.
  rewrite response_timer_or_evaluator, val_handlers_block.
  destruct (fired_name f); try reflexivity.
  destruct (handlers_enabled it); reflexivity.
Qed.

(** ** X3: teardown (lines 183-208) *)

Lemma response_no_teardown it w hs c f :
  List.filter (in_phase teardown) (response it w hs c f) = [].
Proof.
  rewrite response_eq. destruct (fired_name f); try reflexivity.
  - destruct (_ && _); reflexivity.
  - destruct (_ =? 0); reflexivity.
  - destruct (handlers_enabled it); [|reflexivity].
    destruct hs as [r|]; [|reflexivity]. destruct (the_timer r); reflexivity.
Qed.

(** ** X4 and X5: [main] (lines 212-232) *)

Lemma spawn_kwargs_none it c :
  spawn_kwargs it c = None <-> Js.truthy (it_nproc_per_node it) = false.
Proof.
  unfold spawn_kwargs, multi_node.
  destruct (Js.truthy (it_nproc_per_node it)); cbn [andb].
  - destruct (_ && _ && _); split; discriminate.
  - split; reflexivity.
Qed.

(** X4.  [main] fails, with [NameError] on [kwargs], exactly when [dist] is
    ['spawn'] and [nproc_per_node] is not set: no directive then renders an
    assignment to [kwargs].  In every other case it returns. *)
Theorem main_name_error (it : It) (parse_args : Config) (s : St) :
  (val (main it parse_args s) = raised (NameError "kwargs")
   <-> Js.strict_eq (dist it) (Js.Str "spawn") = true
       /\ Js.truthy (it_nproc_per_node it) = false)
  /\ (val (main it parse_args s) = returned
      <-> ~ (Js.strict_eq (dist it) (Js.Str "spawn") = true
             /\ Js.truthy (it_nproc_per_node it) = false)).
Proof.
  unfold main. steps.
  destruct (Js.strict_eq (dist it) (Js.Str "spawn")).
  - destruct (spawn_kwargs it parse_args) as [kw|] eqn:Hk.
    + assert (Hn : Js.truthy (it_nproc_per_node it) <> false).
      { intros Hn. apply (spawn_kwargs_none it parse_args) in Hn. congruence. }
      steps. split; split; try discriminate; intuition congruence.
    + apply spawn_kwargs_none in Hk. steps.
      split; split; try discriminate; intuition congruence.
  - steps. split; split; try discriminate; intuition congruence.
Qed.

(** X5.  [main] always parses the arguments and downloads the datasets of
    [config.data_path] first.  When it returns it has then entered
    [idist.Parallel] with [config.backend] and called [p.run] once; when it
    fails it has called neither. *)
Theorem main_trace_shape (it : It) (parse_args c0 : Config) :
  exists launch,
    main_trace it parse_args c0
    = [ParseArgs; DownloadDatasets (data_path parse_args)] ++ launch
    /\ match val (main it parse_args {| config := c0; registered := [] |}) with
       | returned =>
           exists kwargs,
             launch = [Parallel (backend parse_args) kwargs; ParallelRun]
       | raised _ => launch = []
       end.
Proof.
  unfold main_trace, main. steps.
  destruct (Js.strict_eq (dist it) (Js.Str "spawn")).
  - destruct (spawn_kwargs it parse_args) as [kw|]; steps.
    + eexists. split; [reflexivity|]. eexists. reflexivity.
    + exists []. split; reflexivity.
  - steps. eexists. split; [reflexivity|]. eexists. reflexivity.
Qed.

(** ** X7: the registration phase (lines 76-173) *)

Lemma response_no_registration it w hs c f :
  List.filter (in_phase handler_registration) (response it w hs c f) = [].
Proof.
  rewrite response_eq. destruct (fired_name f); try reflexivity.
  - destruct (_ && _); reflexivity.
  - destruct (_ =? 0); reflexivity.
  - destruct (handlers_enabled it); [|reflexivity].
    destruct hs as [r|]; [|reflexivity]. destruct (the_timer r); reflexivity.
Qed.

(** ** X8 and X9: more on [custom_event_filter] (lines 118-122) *)

(** X8.  Within one evaluation run (a fixed trainer epoch) the filter lets at
    most one iteration through. *)
Theorem custom_event_filter_unique (len_eval epoch max_ep i j : Z) :
  custom_event_filter len_eval epoch max_ep i = true ->
  custom_event_filter len_eval epoch max_ep j = true ->
  i = j.
Proof.
  unfold custom_event_filter. rewrite !py_and_true, !Z.eqb_eq.
  intros [-> _] [-> _]. reflexivity.
Qed.

(** X9.  With an evaluation loader of at most one batch the middle batch is
    batch 0, so the filter rejects every iteration count from 1 on: no image
    is ever logged. *)
Theorem custom_event_filter_single_batch (len_eval epoch max_ep i : Z) :
  0 <= len_eval <= 1 -> 0 < i ->
  custom_event_filter len_eval epoch max_ep i = false.
Proof.
  intros Hlen Hi. unfold custom_event_filter.
  assert (len_eval / 2 = 0) as -> by (apply Z.div_small; lia).
  destruct (Z.eqb_spec i 0); [lia|]. reflexivity.
Qed.

(** ** X10: the events [run] reacts to *)

Lemma response_not_listened it w hs c f :
  listened f = false -> response it w hs c f = [].
Proof.
  rewrite response_eq. unfold listened.
  destruct (fired_name f); try discriminate; reflexivity.
Qed.

Lemma flat_map_filter_listened it w hs c fs :
  flat_map (response it w hs c) (List.filter listened fs)
  = flat_map (response it w hs c) fs.
Proof.
  induction fs as [|f fs IH]; cbn [List.filter flat_map]; [reflexivity|].
  destruct (listened f) eqn:Hf; cbn [flat_map]; rewrite IH.
  - reflexivity.
  - rewrite (response_not_listened _ _ _ _ _ Hf). reflexivity.
Qed.

(** X10.  [run] reacts to [STARTED], [EPOCH_STARTED], [ITERATION_COMPLETED]
    and [EPOCH_COMPLETED] only: the [ITERATION_STARTED], [TERMINATE] and
    [COMPLETED] events of a training run cause no call, so a run is the same
    without them.  In particular an epoch that ends in [TERMINATE] instead
    of [EPOCH_COMPLETED] is not evaluated. *)
Theorem unlistened_events_ignored (it : It) (w : World) (local_rank : Z)
    (c : Config) :
  run_trace it (with_trainer_fires (List.filter listened (trainer_fires w)) w)
    local_rank c
  = run_trace it w local_rank c.
Proof.
  rewrite !run_trace_blocks. cbv zeta.
  cbn [with_trainer_fires trainer_fires].
  rewrite flat_map_filter_listened. reflexivity.
Qed.

(** ** X11 and X12: sizes and seeding *)

Lemma response_no_sized it w hs c f :
  List.filter is_sized (response it w hs c f) = [].
Proof.
  rewrite response_eq. destruct (fired_name f); try reflexivity.
  - destruct (_ && _); reflexivity.
  - destruct (_ =? 0); reflexivity.
  - destruct (handlers_enabled it); [|reflexivity].
    destruct hs as [r|]; [|reflexivity]. destruct (the_timer r); reflexivity.
Qed.

(** X11.  The model and the confusion matrix are built once each, with the
    same [config.num_classes]; the learning-rate schedule is built once,
    from [config.lr], over [config.max_epochs * len(dataloader_train)]
    steps, whatever [config.train_epoch_length] is. *)
Theorem sizes_agree (it : It) (w : World) (local_rank : Z) (c : Config) :
  List.filter is_sized (run_trace it w local_rank c)
  = [ AutoModel (num_classes c);
      LambdaLR (lr c) (max_epochs c * len_dataloader_train w) "0.9";
      ConfusionMatrix (num_classes c) ].
Proof.
  rewrite run_trace_blocks. cbv zeta. rewrite !List.filter_app.
  rewrite filter_handlers_block_nil by reflexivity.
  rewrite filter_experiment_tracking_nil by reflexivity.
  rewrite filter_close_logger_nil by reflexivity.
  rewrite filter_last_checkpoint_nil by reflexivity.
  rewrite (filter_flat_map_nil _ _ _ (response_no_sized it w _ c)).
  reflexivity.
Qed.

Lemma response_no_seed_or_first_use it w hs c f :
  List.filter is_seed_or_first_use (response it w hs c f) = [].
Proof.
  rewrite response_eq. destruct (fired_name f); try reflexivity.
  - destruct (_ && _); reflexivity.
  - destruct (_ =? 0); reflexivity.
  - destruct (handlers_enabled it); [|reflexivity].
    destruct hs as [r|]; [|reflexivity]. destruct (the_timer r); reflexivity.
Qed.

(** X12.  The generators are seeded before the output directory is created,
    the data loaders are set up and the model is built; each of these
    happens once. *)
Theorem seed_before_first_use (it : It) (w : World) (local_rank : Z)
    (c : Config) :
  List.filter is_seed_or_first_use (run_trace it w local_rank c)
  = [ ManualSeed (seed c + get_rank w);
      SetupOutputDir (get_rank w);
      SetupData;
      AutoModel (num_classes c) ].
Proof.
  rewrite run_trace_blocks. cbv zeta. rewrite !List.filter_app.
  rewrite filter_handlers_block_nil by reflexivity.
  rewrite filter_experiment_tracking_nil by reflexivity.
  rewrite filter_close_logger_nil by reflexivity.
  rewrite filter_last_checkpoint_nil by reflexivity.
  rewrite (filter_flat_map_nil _ _ _ (response_no_seed_or_first_use it w _ c)).
  reflexivity.
Qed.

(** ** X13: the configuration that is logged and locked (lines 70-72) *)

Lemma response_no_logger_info it w hs c f :
  List.filter is_config_report
    (response it w hs c f) = [].
Proof.
  rewrite response_eq. destruct (fired_name f); try reflexivity.
  - destruct (_ && _); reflexivity.
  - destruct (_ =? 0); reflexivity.
  - destruct (handlers_enabled it); [|reflexivity].
    destruct hs as [r|]; [|reflexivity]. destruct (the_timer r); reflexivity.
Qed.

(** X13.  The configuration is logged once, right after [setup_logging],
    and the configuration written to [config-lock.yaml] is the one that was
    logged: the parsed configuration with the resolved [output_dir]. *)
Theorem logged_config_is_locked (it : It) (w : World) (local_rank : Z)
    (c : Config) :
  let rc := set_output_dir (setup_output_dir w c (get_rank w)) c in
  List.filter is_config_report
    (run_trace it w local_rank c)
  = [ SetupLogging;
      LoggerInfo (msg_configuration rc);
      WriteText (setup_output_dir w c (get_rank w) ++ ["config-lock.yaml"]) rc ].
Proof.
  intros rc. rewrite run_trace_blocks. cbv zeta. rewrite !List.filter_app.
  rewrite filter_handlers_block_nil by reflexivity.
  rewrite filter_experiment_tracking_nil by reflexivity.
  rewrite filter_close_logger_nil by reflexivity.
  rewrite filter_last_checkpoint_msgs_nil by reflexivity.
  rewrite (filter_flat_map_nil _ _ _ (response_no_logger_info it w _ c)).
  reflexivity.
Qed.

(** ** Instances on the sample inputs *)

Lemma custom_event_filter_unique_witness :
  custom_event_filter 10 3 20 5 = true
  /\ custom_event_filter 10 3 20 (10 / 2) = true
  /\ 5 = 10 / 2.
Proof.
  split; [reflexivity|]. split; [reflexivity|].
  apply (custom_event_filter_unique 10 3 20 5 (10 / 2)); reflexivity.
Defined.

Lemma custom_event_filter_single_batch_witness :
  0 <= 1 <= 1 /\ 0 < 1 /\ custom_event_filter 1 3 20 1 = false.
Proof.
  split; [lia|]. split; [lia|].
  apply (custom_event_filter_single_batch 1 3 20 1); lia.
Defined.

Lemma main_name_error_witness :
  val (main sample_it_spawn_no_nproc sample_config
         {| config := sample_config; registered := [] |})
  = raised (NameError "kwargs")
  /\ val (main sample_it sample_config
            {| config := sample_config; registered := [] |})
     = returned.
Proof.
  split.
  - apply (proj1 (main_name_error sample_it_spawn_no_nproc sample_config
                    {| config := sample_config; registered := [] |})).
    split; reflexivity.
  - apply (proj2 (main_name_error sample_it sample_config
                    {| config := sample_config; registered := [] |})).
    intros [_ H]. discriminate H.
Defined.

(** * The calls from line 148 on

    These statements concern calls that are made only once the event of
    line 148 is built, so they assume a positive [config.log_every_iters]. *)

Lemma filter_nil_impl {A} (p q : A -> bool) (l : list A) :
  (forall a, q a = true -> p a = true) ->
  List.filter p l = [] -> List.filter q l = [].
Proof.
  intros Himp. induction l as [|a l IH]; cbn [List.filter]; [reflexivity|].
  destruct (q a) eqn:Hq.
  - rewrite (Himp a Hq). discriminate.
  - destruct (p a); [discriminate|]. exact IH.
Qed.

Lemma shutdown_is_teardown e :
  is_logger_shutdown e = true -> in_phase teardown e = true.
Proof. destruct e; try discriminate; reflexivity. Qed.

(** The calls of one fired event all belong to the run loop. *)
Lemma response_in_phase p it w hs c f :
  List.filter (in_phase p) (response it w hs c f)
  = if phase_eqb p run_loop then response it w hs c f else [].
Proof.
  rewrite response_eq. cbv zeta.
  destruct p; cbn [phase_eqb phase_rank Nat.eqb];
    (destruct (fired_name f); try reflexivity;
     [ destruct (_ && _); reflexivity
     | destruct (_ =? 0); reflexivity
     | destruct (handlers_enabled it); [|reflexivity];
       destruct hs as [r|]; [|reflexivity];
       destruct (the_timer r); reflexivity ]).
Qed.

Lemma response_of_run it w c f :
  response it w (val (handlers_block it w (state_after_set_epoch w c))) c f
  = match fired_name f with
    | EPOCH_STARTED =>
        if (1 <? get_world_size w) && sampler_is_distributed w
        then [SamplerSetEpoch (state_epoch f - 1)] else []
    | ITERATION_COMPLETED =>
        if state_iteration f mod log_every_iters c =? 0
        then [LogMetrics the_trainer "train"] else []
    | EPOCH_COMPLETED =>
        (if handlers_enabled it then
           match the_timer (handlers_of_run it w c) with
           | Some t =>
               [LoggerInfo (msg_time_per_batch (timer_value t)); TimerReset]
           | None => []
           end
         else [])
        ++ [EvaluatorRun (eval_epoch_length c);
            LogMetrics the_evaluator "eval"]
    | STARTED => [EvaluatorRun (eval_epoch_length c)]
    | _ => []
    end.
Proof.
  rewrite response_eq, val_handlers_block. cbv zeta.
  change (config (state_after_set_epoch w c)) with (resolved_config w c).
  fold (handlers_of_run it w c).
  change (log_every_iters (resolved_config w c)) with (log_every_iters c).
  change (eval_epoch_length (resolved_config w c)) with (eval_epoch_length c).
  destruct (fired_name f); try reflexivity.
  destruct (handlers_enabled it); reflexivity.
Qed.

(** The trace ends with the teardown; [trainer.run] and everything it
    triggers come before. *)
Lemma run_trace_teardown_split it w lr c :
  let s1 := state_after_set_epoch w c in
  let hs := val (handlers_block it w s1) in
  exists before,
    run_trace it w lr c
    = before
      ++ out (close_logger_block it w
                (val (experiment_tracking_block it w s1)) (state_at_run w c))
      ++ out (last_checkpoint_block it hs (state_at_run w c))
    /\ TrainerRun (max_epochs c) (train_epoch_length c) ∈ before
    /\ List.filter (in_phase teardown) before = [].
Proof.
  intros s1 hs. rewrite run_trace_blocks. cbv zeta. fold s1. fold hs.
  eexists (preamble w c ++ out (handlers_block it w s1)
           ++ out (experiment_tracking_block it w s1)
           ++ map AddEventHandler (tail (registrations (resolved_config w c)))
           ++ [TrainerRun (max_epochs c) (train_epoch_length c)]
           ++ flat_map (response it w hs c) (trainer_fires w)).
  split; [|split].
  - rewrite <- !app_assoc. reflexivity.
  - rewrite !elem_of_app. do 4 right. left. apply list_elem_of_here.
  - rewrite !List.filter_app.
    rewrite filter_handlers_block_nil by reflexivity.
    rewrite filter_experiment_tracking_nil by reflexivity.
    rewrite (filter_flat_map_nil _ _ _ (response_no_teardown it w hs c)).
    reflexivity.
Qed.

(** ** Projections of the trace used below *)

Lemma shutdown_filter it w lr c :
  let exp_logger := setup_exp_logging w (resolved_config w c) in
  List.filter is_logger_shutdown (run_trace it w lr c)
  = if Js.truthy (logger it) && (get_rank w =? 0) then
      if isinstance_WandBLogger exp_logger then [ExpLoggerFinish]
      else if logger_truthy exp_logger then [ExpLoggerClose]
      else []
    else [].
Proof.
  intros exp_logger. rewrite run_trace_blocks. cbv zeta.
  rewrite !List.filter_app, filter_preamble_shutdown.
  rewrite out_handlers_block, out_experiment_tracking_block.
  rewrite (filter_flat_map_nil _ _ _ (response_no_shutdown it w _ c)).
  rewrite filter_last_checkpoint_nil by reflexivity.
  rewrite out_close_logger_block.
  destruct (handlers_enabled it), (Js.truthy (logger it) && (get_rank w =? 0));
    cbn; rewrite ?app_nil_r; try reflexivity.
  all: fold exp_logger;
    destruct (isinstance_WandBLogger exp_logger), (logger_truthy exp_logger);
    reflexivity.
Qed.

Lemma artifact_steps_filter it w lr c :
  let rc := resolved_config w c in
  List.filter is_artifact_step (run_trace it w lr c)
  = [ SetupLogging;
      WriteText (output_dir rc ++ ["config-lock.yaml"]) rc;
      TrainerRun (max_epochs c) (train_epoch_length c) ].
Proof.
  intros rc. rewrite run_trace_blocks. cbv zeta.
  rewrite !List.filter_app.
  rewrite (filter_flat_map_nil _ _ _ (response_no_artifact_step it w _ c)).
  rewrite filter_last_checkpoint_nil by reflexivity.
  rewrite filter_close_logger_nil by reflexivity.
  rewrite filter_experiment_tracking_nil by reflexivity.
  rewrite out_handlers_block.
  destruct (handlers_enabled it); reflexivity.
Qed.

Lemma phases_sorted it w lr c :
  StronglySorted phase_le (phases_of (run_trace it w lr c))
  /\ Forall (fun p => p ∈ phases_of (run_trace it w lr c))
       [dataset_setup; model_construction; metric_setup; engine_construction;
        handler_registration; run_loop].
Proof.
  rewrite run_trace_blocks. cbv zeta. rewrite !app_assoc.
  destruct (phases_setup it w c) as (Hs & Hb & Hin). cbv zeta in Hs, Hb, Hin.
  split.
  - rewrite 3!phases_of_app.
    apply (sorted_between 7);
      [ | eapply sorted_single_phase, phases_last_checkpoint
        | apply phase_rank_le_7
        | apply (single_phase_rank teardown), phases_last_checkpoint ].
    apply (sorted_between 7);
      [ | eapply sorted_single_phase, phases_close_logger
        | apply phase_rank_le_7
        | apply (single_phase_rank teardown), phases_close_logger ].
    apply (sorted_between 6);
      [ exact Hs
      | eapply sorted_single_phase, phases_engine_run
      | exact Hb
      | apply (single_phase_rank run_loop), phases_engine_run ].
  - eapply Forall_impl; [exact Hin|].
    intros p Hp. rewrite 3!phases_of_app, !elem_of_app. auto.
Qed.

(** The four phases before the registrations are made by unguarded lines. *)
Lemma setup_phase_filter p it w lr c :
  phase_eqb p handler_registration = false ->
  phase_eqb p run_loop = false ->
  phase_eqb p teardown = false ->
  List.filter (in_phase p) (run_trace it w lr c)
  = List.filter (in_phase p) (preamble w c).
Proof.
  intros Hr Hl Ht. rewrite run_trace_blocks. cbv zeta.
  rewrite !List.filter_app.
  rewrite (filter_flat_map_nil (in_phase p) (response it w _ c));
    [|intros f; rewrite response_in_phase, Hl; reflexivity].
  destruct p; try discriminate.
  all: rewrite filter_handlers_block_nil by reflexivity.
  all: rewrite filter_experiment_tracking_nil by reflexivity.
  all: rewrite filter_close_logger_nil by reflexivity.
  all: rewrite filter_last_checkpoint_msgs_nil by reflexivity.
  all: cbn [registrations tail map List.filter in_phase phase_of phase_eqb
            phase_rank Nat.eqb app].
  all: rewrite ?app_nil_r; reflexivity.
Qed.

Lemma registration_filter it w lr c :
  List.filter (in_phase handler_registration) (run_trace it w lr c)
  = [AddEventHandler reg_set_epoch]
    ++ (if handlers_enabled it
        then [SetupHandlers (to_save_train it) (to_save_eval it)] else [])
    ++ (if Js.truthy (logger it) && (get_rank w =? 0)
        then [SetupExpLogging;
              ExpLoggerAttach the_evaluator 15 "validation"
                {| ev_name := ITERATION_COMPLETED;
                   ev_filter := filter_custom_event_filter |}]
        else [])
    ++ map AddEventHandler (tail (registrations c)).
Proof.
  rewrite run_trace_blocks. cbv zeta. rewrite !List.filter_app.
  rewrite (filter_flat_map_nil _ _ _ (response_no_registration it w _ c)).
  rewrite filter_close_logger_nil by reflexivity.
  rewrite filter_last_checkpoint_msgs_nil by reflexivity.
  rewrite out_handlers_block, out_experiment_tracking_block.
  destruct (handlers_enabled it), (_ && _); reflexivity.
Qed.

Lemma run_loop_filter it w lr c :
  List.filter (in_phase run_loop) (run_trace it w lr c)
  = TrainerRun (max_epochs c) (train_epoch_length c)
    :: flat_map
         (response it w (val (handlers_block it w (state_after_set_epoch w c)))
            c)
         (trainer_fires w).
Proof.
  rewrite run_trace_blocks. cbv zeta. rewrite !List.filter_app.
  rewrite filter_handlers_block_nil by reflexivity.
  rewrite filter_experiment_tracking_nil by reflexivity.
  rewrite filter_close_logger_nil by reflexivity.
  rewrite filter_last_checkpoint_msgs_nil by reflexivity.
  rewrite filter_flat_map.
  rewrite (flat_map_ext _ _ (fun f => response_in_phase run_loop it w _ c f)).
  cbn [phase_eqb phase_rank Nat.eqb].
  cbn [preamble registrations tail map List.filter in_phase phase_of phase_eqb
       phase_rank Nat.eqb app].
  rewrite app_nil_r. reflexivity.
Qed.

Lemma teardown_filter it w lr c :
  let exp_logger := setup_exp_logging w (resolved_config w c) in
  let hs := handlers_of_run it w c in
  List.filter (in_phase teardown) (run_trace it w lr c)
  = (if Js.truthy (logger it) && (get_rank w =? 0) then
       if isinstance_WandBLogger exp_logger then [ExpLoggerFinish]
       else if logger_truthy exp_logger then [ExpLoggerClose]
       else []
     else [])
    ++ (if handlers_enabled it then
          match ckpt_handler_train hs with
          | Some k =>
              [LoggerInfo (msg_last_training_checkpoint (last_checkpoint k))]
          | None => []
          end
          ++ match ckpt_handler_eval hs with
             | Some k =>
                 [LoggerInfo
                    (msg_last_evaluation_checkpoint (last_checkpoint k))]
             | None => []
             end
        else []).
Proof.
  intros exp_logger hs. rewrite run_trace_blocks. cbv zeta.
  rewrite !List.filter_app.
  rewrite filter_handlers_block_nil by reflexivity.
  rewrite filter_experiment_tracking_nil by reflexivity.
  rewrite (filter_flat_map_nil _ _ _ (response_no_teardown it w _ c)).
  rewrite out_close_logger_block, out_last_checkpoint_block.
  rewrite val_handlers_block.
  change (config (state_after_set_epoch w c)) with (resolved_config w c).
  fold exp_logger. fold (handlers_of_run it w c). fold hs.
  cbn [preamble List.filter in_phase phase_of phase_eqb phase_rank Nat.eqb
       registrations tail map app].
  f_equal.
  - destruct (_ && _); [|reflexivity].
    destruct (isinstance_WandBLogger exp_logger); [reflexivity|].
    destruct (logger_truthy exp_logger); reflexivity.
  - destruct (handlers_enabled it); [|reflexivity].
    destruct (ckpt_handler_train hs), (ckpt_handler_eval hs); reflexivity.
Qed.

Lemma filter_teardown_close it w lg s :
  List.filter (in_phase teardown) (out (close_logger_block it w lg s))
  = out (close_logger_block it w lg s).
Proof.
  unfold close_logger_block.
  destruct (Js.truthy (logger it)); [|reflexivity].
  destruct (get_rank w =? 0); [|reflexivity].
  destruct lg as [lg|]; [|reflexivity].
  destruct (isinstance_WandBLogger lg); [reflexivity|].
  destruct (logger_truthy lg); reflexivity.
Qed.

Lemma filter_teardown_last_checkpoint it hs s :
  List.filter (in_phase teardown) (out (last_checkpoint_block it hs s))
  = out (last_checkpoint_block it hs s).
Proof.
  rewrite out_last_checkpoint_block.
  destruct (handlers_enabled it); [|reflexivity].
  destruct hs as [r|]; [|reflexivity].
  destruct (ckpt_handler_train r), (ckpt_handler_eval r); reflexivity.
Qed.

(** The trace ends with the calls of the teardown phase. *)
Lemma run_trace_ends_with_teardown it w lr c :
  exists before,
    run_trace it w lr c
    = before ++ List.filter (in_phase teardown) (run_trace it w lr c)
    /\ TrainerRun (max_epochs c) (train_epoch_length c) ∈ before
    /\ List.filter (in_phase teardown) before = [].
Proof.
  destruct (run_trace_teardown_split it w lr c) as (before & Heq & Hin & Hnil).
  cbv zeta in Heq. exists before. split; [|split; assumption].
  assert (Hf : List.filter (in_phase teardown) (run_trace it w lr c)
               = out (close_logger_block it w
                        (val (experiment_tracking_block it w
                                (state_after_set_epoch w c)))
                        (state_at_run w c))
                 ++ out (last_checkpoint_block it
                           (val (handlers_block it w
                                   (state_after_set_epoch w c)))
                           (state_at_run w c))).
  { rewrite Heq, !List.filter_app, Hnil.
    rewrite filter_teardown_close, filter_teardown_last_checkpoint.
    reflexivity. }
  rewrite Hf. exact Heq.
Qed.

(** ** C2: the shutdown of the experiment logger, at teardown *)

(** C2.  With a positive [config.log_every_iters]: the calls that shut the
    experiment logger down are none unless the logger option is set and the
    rank is 0; otherwise [finish()] for a [WandBLogger], [close()] for any
    other logger that is true, and nothing for one that is false.  They are
    made at teardown: [trainer.run] and every call of the run loop come
    before them, and only the checkpoint-name lines come after.  Every other
    call of [run] is the same whatever logger [setup_exp_logging]
    returned. *)
Theorem logger_shutdown_special_case (it : It) (w : World) (local_rank : Z)
    (c : Config) (lg : ExpLogger) :
  0 < log_every_iters c ->
  let exp_logger := setup_exp_logging w (resolved_config w c) in
  let shutdown :=
    if Js.truthy (logger it) && (get_rank w =? 0) then
      if isinstance_WandBLogger exp_logger then [ExpLoggerFinish]
      else if logger_truthy exp_logger then [ExpLoggerClose]
      else []
    else [] in
  List.filter is_logger_shutdown (run_trace it w local_rank c) = shutdown
  /\ (exists before after,
        run_trace it w local_rank c = before ++ shutdown ++ after
        /\ TrainerRun (max_epochs c) (train_epoch_length c) ∈ before
        /\ List.filter is_logger_shutdown before = []
        /\ List.filter (in_phase run_loop) after = []
        /\ List.filter is_logger_shutdown after = [])
  /\ List.filter (fun e => negb (is_logger_shutdown e))
       (run_trace it (with_exp_logger lg w) local_rank c)
     = List.filter (fun e => negb (is_logger_shutdown e))
         (run_trace it w local_rank c).
Proof.
  intros _ exp_logger shutdown.
  split; [apply shutdown_filter|]. split; [|apply run_trace_with_exp_logger].
  destruct (run_trace_teardown_split it w local_rank c)
    as (before & Heq & Hin & Hnil).
  cbv zeta in Heq. rewrite out_close_logger_block in Heq.
  change (config (state_after_set_epoch w c)) with (resolved_config w c)
    in Heq.
  exists before. eexists. split; [exact Heq|]. split; [exact Hin|].
  split; [|split].
  - exact (filter_nil_impl _ _ _ shutdown_is_teardown Hnil).
  - apply filter_last_checkpoint_msgs_nil; reflexivity.
  - apply filter_last_checkpoint_nil; reflexivity.
Qed.

(** ** C5: the configuration lock file, written before training *)

(** C5.  With a positive [config.log_every_iters]: among logger setup, file
    writes and the start of training, [run] performs exactly
    [setup_logging], then one write of [yaml.dump(config)] (the
    configuration with its resolved [output_dir]) to
    [config.output_dir / "config-lock.yaml"], then [trainer.run].  No other
    file is written. *)
Theorem config_lock_written (it : It) (w : World) (local_rank : Z)
    (c : Config) :
  0 < log_every_iters c ->
  let rc := resolved_config w c in
  List.filter is_artifact_step (run_trace it w local_rank c)
  = [ SetupLogging;
      WriteText (output_dir rc ++ ["config-lock.yaml"]) rc;
      TrainerRun (max_epochs c) (train_epoch_length c) ]
  /\ output_dir rc = setup_output_dir w c (get_rank w).
Proof.
  intros _ rc. split; [apply artifact_steps_filter|reflexivity].
Qed.

(** ** C6: the phases of [run], call by call *)

(** C6.  With a positive [config.log_every_iters], every execution of [run]
    goes through its phases in the order dataset setup, model, optimizer,
    loss and scheduler construction, metric setup, trainer and evaluator
    construction, handler registration, run loop, teardown: no call of a
    later phase precedes a call of an earlier one, the first six phases
    always make a call, and the calls of each phase are exactly the ones
    listed, in the order listed. *)
Theorem run_phase_order (it : It) (w : World) (local_rank : Z) (c : Config) :
  0 < log_every_iters c ->
  let tr := run_trace it w local_rank c in
  let hs := handlers_of_run it w c in
  let exp_logger := setup_exp_logging w (resolved_config w c) in
  StronglySorted phase_le (phases_of tr)
  /\ Forall (fun p => p ∈ phases_of tr)
       [dataset_setup; model_construction; metric_setup; engine_construction;
        handler_registration; run_loop]
  /\ List.filter (in_phase dataset_setup) tr = [SetupData]
  /\ List.filter (in_phase model_construction) tr
     = [ AutoModel (num_classes c);
         AutoOptim "1.0" "0.9" "5e-4" false;
         CrossEntropyLoss;
         LambdaLR (lr c) (max_epochs c * len_dataloader_train w) "0.9" ]
  /\ List.filter (in_phase metric_setup) tr
     = [ConfusionMatrix (num_classes c); IoU; mIoU]
  /\ List.filter (in_phase engine_construction) tr
     = [SetupTrainer; SetupEvaluator]
  /\ List.filter (in_phase handler_registration) tr
     = [AddEventHandler reg_set_epoch]
       ++ (if handlers_enabled it
           then [SetupHandlers (to_save_train it) (to_save_eval it)] else [])
       ++ (if Js.truthy (logger it) && (get_rank w =? 0)
           then [SetupExpLogging;
                 ExpLoggerAttach the_evaluator 15 "validation"
                   {| ev_name := ITERATION_COMPLETED;
                      ev_filter := filter_custom_event_filter |}]
           else [])
       ++ map AddEventHandler (tail (registrations c))
  /\ List.filter (in_phase run_loop) tr
     = TrainerRun (max_epochs c) (train_epoch_length c)
       :: flat_map
            (fun f =>
               match fired_name f with
               | STARTED => [EvaluatorRun (eval_epoch_length c)]
               | EPOCH_STARTED =>
                   if (1 <? get_world_size w) && sampler_is_distributed w
                   then [SamplerSetEpoch (state_epoch f - 1)] else []
               | ITERATION_COMPLETED =>
                   if state_iteration f mod log_every_iters c =? 0
                   then [LogMetrics the_trainer "train"] else []
               | EPOCH_COMPLETED =>
                   (if handlers_enabled it then
                      match the_timer hs with
                      | Some t =>
                          [LoggerInfo (msg_time_per_batch (timer_value t));
                           TimerReset]
                      | None => []
                      end
                    else [])
                   ++ [EvaluatorRun (eval_epoch_length c);
                       LogMetrics the_evaluator "eval"]
               | _ => []
               end)
            (trainer_fires w)
  /\ List.filter (in_phase teardown) tr
     = (if Js.truthy (logger it) && (get_rank w =? 0) then
          if isinstance_WandBLogger exp_logger then [ExpLoggerFinish]
          else if logger_truthy exp_logger then [ExpLoggerClose]
          else []
        else [])
       ++ (if handlers_enabled it then
             match ckpt_handler_train hs with
             | Some k =>
                 [LoggerInfo
                    (msg_last_training_checkpoint (last_checkpoint k))]
             | None => []
             end
             ++ match ckpt_handler_eval hs with
                | Some k =>
                    [LoggerInfo
                       (msg_last_evaluation_checkpoint (last_checkpoint k))]
                | None => []
                end
           else []).
Proof.
  intros _ tr hs exp_logger. subst tr.
  destruct (phases_sorted it w local_rank c) as [Hs Hin].
  split; [exact Hs|]. split; [exact Hin|].
  rewrite !setup_phase_filter by reflexivity.
  repeat (split; [reflexivity|]).
  split; [apply registration_filter|].
  split; [|apply teardown_filter].
  rewrite run_loop_filter. f_equal.
  apply flat_map_ext. intros f. rewrite response_of_run.
  destruct (fired_name f); reflexivity.
Qed.

(** ** X3: the teardown closes the run (lines 183-208) *)

(** X3.  With a positive [config.log_every_iters]: the last calls of [run],
    after [trainer.run] and everything before it, are the shutdown of the
    experiment logger (on rank 0, when the logger option is set) and then
    the lines naming the last training checkpoint and the last evaluation
    checkpoint, in this order, each only when one of the six handler options
    is set and [setup_handlers] returned that checkpoint handler. *)
Theorem teardown_calls (it : It) (w : World) (local_rank : Z) (c : Config) :
  0 < log_every_iters c ->
  let exp_logger := setup_exp_logging w (resolved_config w c) in
  let hs := handlers_of_run it w c in
  let teardown_list :=
    (if Js.truthy (logger it) && (get_rank w =? 0) then
       if isinstance_WandBLogger exp_logger then [ExpLoggerFinish]
       else if logger_truthy exp_logger then [ExpLoggerClose]
       else []
     else [])
    ++ (if handlers_enabled it then
          match ckpt_handler_train hs with
          | Some k =>
              [LoggerInfo (msg_last_training_checkpoint (last_checkpoint k))]
          | None => []
          end
          ++ match ckpt_handler_eval hs with
             | Some k =>
                 [LoggerInfo
                    (msg_last_evaluation_checkpoint (last_checkpoint k))]
             | None => []
             end
        else []) in
  List.filter (in_phase teardown) (run_trace it w local_rank c) = teardown_list
  /\ exists before,
       run_trace it w local_rank c = before ++ teardown_list
       /\ TrainerRun (max_epochs c) (train_epoch_length c) ∈ before
       /\ List.filter (in_phase teardown) before = [].
Proof.
  intros _ exp_logger hs teardown_list.
  pose proof (teardown_filter it w local_rank c) as Hf. cbv zeta in Hf.
  split; [exact Hf|].
  destruct (run_trace_ends_with_teardown it w local_rank c)
    as (before & Heq & Hin & Hnil).
  exists before. rewrite Hf in Heq. auto.
Qed.

(** ** X6: the state [run] leaves behind *)

(** X6.  With a positive [config.log_every_iters]: [run] changes [config]
    in its [output_dir] only, which becomes the result of
    [setup_output_dir(config, rank)], and adds to the handlers already
    registered exactly four handlers on the trainer, in this order:
    [set_epoch] on [EPOCH_STARTED], [log_metrics] on every
    [log_every_iters]-th [ITERATION_COMPLETED], the evaluation on every
    [EPOCH_COMPLETED], the sanity check on [STARTED]. *)
Theorem run_final_state (it : It) (w : World) (local_rank : Z) (c : Config)
    (rs : list Registration) :
  0 < log_every_iters c ->
  st (run it w local_rank {| config := c; registered := rs |})
  = {| config := set_output_dir (setup_output_dir w c (get_rank w)) c;
       registered :=
         rs ++
         [ {| reg_engine := the_trainer;
              reg_event := {| ev_name := EPOCH_STARTED;
                              ev_filter := no_filter |};
              reg_handler := set_epoch |};
           {| reg_engine := the_trainer;
              reg_event := {| ev_name := ITERATION_COMPLETED;
                              ev_filter := every (log_every_iters c) |};
              reg_handler := log_metrics_tagged "train" |};
           {| reg_engine := the_trainer;
              reg_event := {| ev_name := EPOCH_COMPLETED;
                              ev_filter := every 1 |};
              reg_handler := on_epoch_completed |};
           {| reg_engine := the_trainer;
              reg_event := {| ev_name := STARTED; ev_filter := no_filter |};
              reg_handler := on_started |} ] |}.
Proof.
  intros _. unfold run. steps.
  rewrite st_last_checkpoint_block, st_close_logger_block, st_engine_run.
  rewrite !st_handlers_block, !st_experiment_tracking_block.
  cbn [config registered]. rewrite <- !app_assoc. reflexivity.
Qed.

(** ** X7: the order of the registrations (lines 76-173) *)

(** X7.  With a positive [config.log_every_iters], the handlers are set up
    in this order: [set_epoch]; then [setup_handlers], when one of the six
    handler options is set; then the experiment logger and its image handler
    (15 images, prefix ["validation"], on the evaluator's filtered
    [ITERATION_COMPLETED]), when the logger option is set and the rank is 0;
    then the metric logger, the evaluation and the sanity check.  So
    whatever [setup_handlers] registers comes before the evaluation handler
    of [run]. *)
Theorem registration_order (it : It) (w : World) (local_rank : Z)
    (c : Config) :
  0 < log_every_iters c ->
  List.filter (in_phase handler_registration) (run_trace it w local_rank c)
  = [AddEventHandler reg_set_epoch]
    ++ (if handlers_enabled it
        then [SetupHandlers (to_save_train it) (to_save_eval it)] else [])
    ++ (if Js.truthy (logger it) && (get_rank w =? 0)
        then [SetupExpLogging;
              ExpLoggerAttach the_evaluator 15 "validation"
                {| ev_name := ITERATION_COMPLETED;
                   ev_filter := filter_custom_event_filter |}]
        else [])
    ++ map AddEventHandler (tail (registrations c)).
Proof. intros _. apply registration_filter. Qed.

(** ** Instances on the sample run *)

Lemma logger_shutdown_special_case_witness :
  0 < log_every_iters sample_config
  /\ List.filter is_logger_shutdown
       (run_trace sample_it (sample_world 0) 0 sample_config)
     = [ExpLoggerFinish].
Proof.
  split; [reflexivity|].
  exact (proj1 (logger_shutdown_special_case sample_it (sample_world 0) 0
                  sample_config
                  {| isinstance_WandBLogger := false; logger_truthy := true |}
                  eq_refl)).
Defined.

Lemma config_lock_written_witness :
  0 < log_every_iters sample_config
  /\ List.filter is_artifact_step
       (run_trace sample_it (sample_world 0) 0 sample_config)
     = [ SetupLogging;
         WriteText ["logs"; "run-1"; "config-lock.yaml"]
           (resolved_config (sample_world 0) sample_config);
         TrainerRun 2 (Some 3) ].
Proof.
  split; [reflexivity|].
  exact (proj1 (config_lock_written sample_it (sample_world 0) 0 sample_config
                  eq_refl)).
Defined.

Lemma run_phase_order_witness :
  0 < log_every_iters sample_config
  /\ List.filter (in_phase teardown)
       (run_trace sample_it (sample_world 0) 0 sample_config)
     = [ ExpLoggerFinish;
         LoggerInfo (msg_last_training_checkpoint (PyStr "ckpt.pt")) ].
Proof.
  split; [reflexivity|].
  exact (proj2 (proj2 (proj2 (proj2 (proj2 (proj2 (proj2 (proj2
          (run_phase_order sample_it (sample_world 0) 0 sample_config
             eq_refl))))))))).
Defined.

Lemma teardown_calls_witness :
  0 < log_every_iters sample_config
  /\ List.filter (in_phase teardown)
       (run_trace sample_it (sample_world 0) 0 sample_config)
     = [ ExpLoggerFinish;
         LoggerInfo (msg_last_training_checkpoint (PyStr "ckpt.pt")) ].
Proof.
  split; [reflexivity|].
  exact (proj1 (teardown_calls sample_it (sample_world 0) 0 sample_config
                  eq_refl)).
Defined.

Lemma run_final_state_witness :
  0 < log_every_iters sample_config
  /\ length (registered
               (st (run sample_it (sample_world 0) 0
                      {| config := sample_config; registered := [] |})))
     = 4%nat.
Proof.
  split; [reflexivity|].
  rewrite (run_final_state sample_it (sample_world 0) 0 sample_config []
             eq_refl).
  reflexivity.
Defined.

Lemma registration_order_witness :
  0 < log_every_iters sample_config
  /\ List.filter (in_phase handler_registration)
       (run_trace sample_it (sample_world 1) 1 sample_config)
     = [AddEventHandler reg_set_epoch;
        SetupHandlers (Some to_save_train_dict) None]
       ++ map AddEventHandler (tail (registrations sample_config)).
Proof.
  split; [reflexivity|].
  exact (registration_order sample_it (sample_world 1) 1 sample_config
           eq_refl).
Defined.
